(** * Azure Sentinel app (azure-sentinel/1.0.0/src/app.py)

    A shallow embedding of the [AzureSentinel] class: the five actions
    [authenticate], [get_incidents], [get_incident], [close_incident] and
    [add_comment], with the two extractors they call, written in a state
    and exception monad over the application object ([self.s], the
    requests sent so far, the identifiers drawn so far).

    Conventions.
    - A Python [str] is a [string]; each [ascii] stands for one code point
      below 256.
    - A Python object of JSON shape ([None], [bool], [int], [float], [str],
      [list], [dict]) is a [value]; a [dict] keeps its insertion order, so
      it is an association list.
    - The remote servers, [json.loads], [json.dumps], [str()] of a
      non-string object, [uuid.uuid4] and the default headers of
      [requests.Session] are not code of this repository: they are the
      variables of the section [App]. *)

From Stdlib Require Import String Ascii List ZArith Bool Lia DecimalString.
Import ListNotations.
Local Open Scope string_scope.
Local Open Scope Z_scope.

(** ** Python strings *)

Module PyStr.

(** The double-quote character, as a one-character string. *)
Definition dq : string := String (ascii_of_nat 34) EmptyString.

(** [bool(s)] for a string: the empty string is false. *)
Definition truthy (s : string) : bool :=
  match s with
  | EmptyString => false
  | String _ _ => true
  end.

(** [c.isspace()] for a code point below 256: TAB, LF, VT, FF, CR, the
    separators FS, GS, RS, US, space, NEL and the no-break space. *)
Definition isspace (c : ascii) : bool :=
  let n := nat_of_ascii c in
  ((9 <=? n) && (n <=? 13) || (28 <=? n) && (n <=? 32)
   || (n =? 133) || (n =? 160))%nat.

(** [s.lstrip(...)]: drop the leading characters satisfying [p]. *)
Fixpoint lstrip (p : ascii -> bool) (s : string) : string :=
  match s with
  | EmptyString => EmptyString
  | String c s' => if p c then lstrip p s' else s
  end.

(** [s.rstrip(...)]: drop the trailing characters satisfying [p]. *)
Fixpoint rstrip (p : ascii -> bool) (s : string) : string :=
  match s with
  | EmptyString => EmptyString
  | String c s' =>
      match rstrip p s' with
      | EmptyString => if p c then EmptyString else String c EmptyString
      | String d r => String c (String d r)
      end
  end.

(** [s.strip()] and [s.strip(chars)]. *)
Definition strip_with (p : ascii -> bool) (s : string) : string :=
  rstrip p (lstrip p s).

Definition strip (s : string) : string := strip_with isspace s.

Definition strip_chars (chars : string) (s : string) : string :=
  strip_with (fun c => existsb (Ascii.eqb c) (list_ascii_of_string chars)) s.

(** [s.split(sep)] for a separator of one character (the source splits
    on [","] and on ["-"]): the pieces between the separators, in order;
    always at least one piece. *)
Fixpoint split (sep : ascii) (s : string) : list string :=
  match s with
  | EmptyString => [EmptyString]
  | String c s' =>
      if Ascii.eqb c sep then EmptyString :: split sep s'
      else match split sep s' with
           | [] => [String c EmptyString]
           | p :: ps => String c p :: ps
           end
  end.

(** [sep.join(l)]. *)
Definition join (sep : string) (l : list string) : string :=
  String.concat sep l.

(** [c.lower()] for a code point below 256: A-Z, and the capital letters
    of Latin-1 (192-222 without the multiplication sign 215). *)
Definition lower_char (c : ascii) : ascii :=
  let n := nat_of_ascii c in
  if ((65 <=? n) && (n <=? 90)
      || (192 <=? n) && (n <=? 222) && negb (n =? 215))%nat
  then ascii_of_nat (n + 32) else c.

Fixpoint lower (s : string) : string :=
  match s with
  | EmptyString => EmptyString
  | String c s' => String (lower_char c) (lower s')
  end.

(** [sub in s] for two strings. *)
Fixpoint contains (sub s : string) : bool :=
  String.prefix sub s
  || match s with
     | EmptyString => false
     | String _ s' => contains sub s'
     end.

(** The characters of a string, as iteration over it yields them. *)
Definition chars (s : string) : list string :=
  map (fun c => String c EmptyString) (list_ascii_of_string s).

End PyStr.

(** ** Python objects of JSON shape *)

#[warnings="-register-all"]
Inductive value : Type :=
| VNone
| VBool (b : bool)
| VInt (n : Z)
| VFloat (bits : Z)
| VStr (s : string)
| VList (l : list value)
| VDict (d : list (string * value)).

(** The exceptions the actions can end with. [RequestException] stands
    for every failure of the transport inside [requests]. *)
Inductive exn : Type :=
| JSONDecodeError
| KeyError (key : string)
| AttributeError
| TypeError
| RequestException.

Inductive result (A : Type) : Type :=
| Ok (a : A)
| Raise (e : exn).
Arguments Ok {A} a.
Arguments Raise {A} e.

Module Dict.

(** [d.get(k)] on the association list of a dict. *)
Fixpoint get {A : Type} (k : string) (d : list (string * A)) : option A :=
  match d with
  | [] => None
  | (k', v) :: d' => if String.eqb k k' then Some v else get k d'
  end.

(** [k in d]. *)
Definition mem {A : Type} (k : string) (d : list (string * A)) : bool :=
  match get k d with
  | Some _ => true
  | None => false
  end.

(** [d[k] = v]: the value of an existing key is replaced where it stands,
    a new key goes last. *)
Fixpoint set {A : Type} (k : string) (v : A) (d : list (string * A))
  : list (string * A) :=
  match d with
  | [] => [(k, v)]
  | (k', v') :: d' =>
      if String.eqb k k' then (k, v) :: d' else (k', v') :: set k v d'
  end.

End Dict.

(** [v.get(k, default)]: only a dict has the method. *)
Definition py_get (v : value) (k : string) (default : value) : result value :=
  match v with
  | VDict d =>
      match Dict.get k d with
      | Some x => Ok x
      | None => Ok default
      end
  | _ => Raise AttributeError
  end.

(** [v[k]] for a string [k]: a dict answers, or raises [KeyError]; no
    other object of JSON shape takes a string subscript. *)
Definition py_getitem (v : value) (k : string) : result value :=
  match v with
  | VDict d =>
      match Dict.get k d with
      | Some x => Ok x
      | None => Raise (KeyError k)
      end
  | _ => Raise TypeError
  end.

(** [v[k] = x] for a string [k]. *)
Definition py_setitem (v : value) (k : string) (x : value) : result value :=
  match v with
  | VDict d => Ok (VDict (Dict.set k x d))
  | _ => Raise TypeError
  end.

(** [k in v] for a string [k]: a key of a dict, an element of a list, a
    substring of a string; the other objects are not containers. *)
Definition py_in (k : string) (v : value) : result bool :=
  match v with
  | VDict d => Ok (Dict.mem k d)
  | VList l =>
      Ok (existsb (fun x => match x with
                            | VStr s => String.eqb k s
                            | _ => false
                            end) l)
  | VStr s => Ok (PyStr.contains k s)
  | _ => Raise TypeError
  end.

(** [v.strip(chars)]: only a string has the method. *)
Definition py_strip_chars (chars : string) (v : value) : result string :=
  match v with
  | VStr s => Ok (PyStr.strip_chars chars s)
  | _ => Raise AttributeError
  end.

(** ** The keyword arguments of an action: named string parameters *)

Definition kwargs : Type := list (string * string).

(** [kwargs[k]]. *)
Definition kw_item (kw : kwargs) (k : string) : result string :=
  match Dict.get k kw with
  | Some x => Ok x
  | None => Raise (KeyError k)
  end.

(** [kwargs.get(k, default)]. *)
Definition kw_get (kw : kwargs) (k : string) (default : string) : string :=
  match Dict.get k kw with
  | Some x => x
  | None => default
  end.

(** ** HTTP requests and responses, as [requests] sees them *)

Inductive http_method : Type := GET | POST | PUT.

(** What a call passes as [data=] (a form) or [json=] (an object). *)
Inductive payload : Type :=
| NoBody
| FormData (fields : list (string * string))
| JsonBody (v : value).

Record request : Type := mkRequest {
  req_method : http_method;
  req_url : string;
  req_params : list (string * string);
  req_headers : list (string * string);          (* [headers=] of the call *)
  req_session_headers : list (string * string);  (* [self.s.headers] then *)
  req_body : payload
}.

Record response : Type := mkResponse {
  status_code : Z;
  text : string
}.

(** The dict [authenticate] returns, with its two fixed keys. *)
Record auth_result : Type := mkAuth {
  success : bool;
  message : string
}.

(** ** The application object *)

Record app : Type := mkApp {
  session : option (list (string * string)); (* [self.s], by its headers *)
  sent : list request;                       (* newest first *)
  drawn : nat                                (* identifiers drawn so far *)
}.

(** A computation on the application object: it ends with a value or
    with an exception, and the object it leaves is kept in both cases. *)
Definition M (A : Type) : Type := app -> result A * app.

Definition ret {A : Type} (a : A) : M A := fun st => (Ok a, st).

Definition raise {A : Type} (e : exn) : M A := fun st => (Raise e, st).

Definition bind {A B : Type} (m : M A) (k : A -> M B) : M B :=
  fun st =>
    match m st with
    | (Ok a, st') => k a st'
    | (Raise e, st') => (Raise e, st')
    end.

Definition lift {A : Type} (r : result A) : M A := fun st => (r, st).

Declare Scope app_scope.
Delimit Scope app_scope with app.
Notation "x <- m ;; k" := (bind m (fun x => k))
  (at level 61, m at next level, right associativity) : app_scope.
Notation "m ;;; k" := (bind m (fun _ => k))
  (at level 61, right associativity) : app_scope.
Local Open Scope app_scope.

(** A [for] loop whose body computes the new element. *)
Fixpoint for_each {A B : Type} (body : A -> M B) (l : list A) : M (list B) :=
  match l with
  | [] => ret []
  | x :: l' =>
      y <- body x ;;
      l'' <- for_each body l' ;;
      ret (y :: l'')
  end.

(** ** A concrete environment

    A token endpoint and a workspace with one incident, a JSON printer
    for the documents they serve, and the reader that inverts it on these
    documents. The closed examples below run the actions against it. *)

Module Mock.

(** A string of a JSON text: quotes and backslashes are escaped. *)
Fixpoint escape (s : string) : string :=
  match s with
  | EmptyString => EmptyString
  | String c s' =>
      if Ascii.eqb c (ascii_of_nat 34) || Ascii.eqb c (ascii_of_nat 92)
      then String (ascii_of_nat 92) (String c (escape s'))
      else String c (escape s')
  end.

Definition quoted (s : string) : string := PyStr.dq ++ escape s ++ PyStr.dq.

(** The text of an object, with the separators [json.dumps] uses. Floats
    do not occur in the documents served here. *)
Fixpoint dumps (v : value) : string :=
  match v with
  | VNone => "null"
  | VBool true => "true"
  | VBool false => "false"
  | VInt n => NilZero.string_of_int (Z.to_int n)
  | VFloat _ => "NaN"
  | VStr s => quoted s
  | VList l => "[" ++ PyStr.join ", " (map dumps l) ++ "]"
  | VDict d =>
      "{" ++ PyStr.join ", "
               (map (fun kv : string * value =>
                       let (k, x) := kv in quoted k ++ ": " ++ dumps x) d)
          ++ "}"
  end.

Definition token_document : value :=
  VDict [("token_type", VStr "Bearer"); ("access_token", VStr "eyJ0eXAi")].

Definition invalid_client_document : value :=
  VDict [("error", VStr "invalid_client")].

Definition unauthorized_document : value :=
  VDict [("error", VDict [("code", VStr "AuthenticationFailed")])].

Definition incident_id : string :=
  "/subscriptions/sub1/resourceGroups/rg1/providers/Microsoft.OperationalInsights/workspaces/ws1/providers/Microsoft.SecurityInsights/incidents/inc1".

Definition incident_document : value :=
  VDict [ ("id", VStr incident_id);
          ("etag", VStr (PyStr.dq ++ "0300bf09" ++ PyStr.dq));
          ("properties",
            VDict [ ("title", VStr "Suspicious sign-in");
                    ("severity", VStr "High");
                    ("status", VStr "New") ]) ].

Definition incidents_document : value :=
  VDict [("value", VList [incident_document])].

Definition closed_document : value :=
  VDict [ ("id", VStr incident_id);
          ("properties",
            VDict [ ("title", VStr "Suspicious sign-in");
                    ("severity", VStr "High");
                    ("status", VStr "Closed") ]) ].

Definition no_id_document : value :=
  VDict [ ("success", VBool false);
          ("error", VStr "No incident ID supplied") ].

Definition documents : list value :=
  [ token_document; invalid_client_document; unauthorized_document;
    incident_document; incidents_document; closed_document;
    no_id_document ].

(** The reader: the document whose text this is, if there is one. *)
Definition loads (s : string) : option value :=
  find (fun v => String.eqb (dumps v) s) documents.

Definition str (v : value) : string :=
  match v with
  | VInt n => NilZero.string_of_int (Z.to_int n)
  | _ => "<object>"
  end.

Definition uuid4 (n : nat) : string :=
  "3f2b8c1e-5d4a-4e6f-9a7b-" ++ NilZero.string_of_uint (Nat.to_uint n).

Definition default_headers : list (string * string) :=
  [ ("User-Agent", "python-requests/2.31.0");
    ("Accept-Encoding", "gzip, deflate");
    ("Accept", "*/*");
    ("Connection", "keep-alive") ].

Definition workspace_url : string :=
  "https://management.azure.com/subscriptions/sub1/resourceGroups/rg1/providers/Microsoft.OperationalInsights/workspaces/ws1/providers/Microsoft.SecurityInsights/incidents".

Definition token_url (tenant : string) : string :=
  "https://login.microsoftonline.com/" ++ tenant ++ "/oauth2/v2.0/token".

(** The servers. The tenant [contoso] gets a token, the tenant [expired]
    a 401 with a JSON body, the tenant [gateway] a 502 whose body is not
    JSON; the workspace answers 401 to a request without a bearer token. *)
Definition net (history : list request) (rq : request) : option response :=
  let url := req_url rq in
  if String.eqb url (token_url "contoso") then
    Some (mkResponse 200 (dumps token_document))
  else if String.eqb url (token_url "expired") then
    Some (mkResponse 401 (dumps invalid_client_document))
  else if String.eqb url (token_url "gateway") then
    Some (mkResponse 502 "Bad Gateway")
  else if negb (Dict.mem "Authorization" (req_session_headers rq)) then
    Some (mkResponse 401 (dumps unauthorized_document))
  else
    match req_method rq with
    | GET =>
        if String.eqb url workspace_url then
          Some (mkResponse 200 (dumps incidents_document))
        else if String.eqb url (workspace_url ++ "/inc1") then
          Some (mkResponse 200 (dumps incident_document))
        else Some (mkResponse 404 "Not Found")
    | PUT =>
        if String.eqb url (workspace_url ++ "/inc1") then
          Some (mkResponse 200 (dumps closed_document))
        else Some (mkResponse 404 "Not Found")
    | POST => Some (mkResponse 404 "Not Found")
    end.

(** An application object on which no action has run. *)
Definition fresh : app := mkApp None [] 0.

Definition credentials (tenant : string) : kwargs :=
  [ ("tenant_id", tenant); ("client_id", "app1"); ("client_secret", "s3cr3t");
    ("subscription_id", "sub1"); ("resource_group_name", "rg1");
    ("workspace_name", "ws1") ].

(** The arguments of [get_incidents]. *)
Definition list_args (tenant status last_modified : string) : kwargs :=
  (credentials tenant
   ++ [("status", status); ("last_modified", last_modified)])%list.

(** The arguments of [get_incident] and [close_incident] for the incident
    [inc1]. *)
Definition close_args (tenant reason comment : string) : kwargs :=
  (credentials tenant
   ++ [ ("incident_id", "inc1"); ("close_reason", reason);
        ("close_comment", comment) ])%list.

End Mock.

(** ** A second environment

    The same workspace with two incidents, serving entities and comments
    for the first, comment updates, an incident document without [id],
    and three more tenants: [fabrikam] gets a 200 without [access_token],
    [listy] a 200 whose body is a JSON list, [offline] no answer. *)

Module Lab.

Definition bare_token_document : value :=
  VDict [("token_type", VStr "Bearer")].

Definition entities_document : value :=
  VDict [("entities", VList [VDict [("kind", VStr "Ip")]])].

Definition comments_document : value :=
  VDict [("value", VList [VDict [("name", VStr "c1")]])].

Definition not_found_document : value :=
  VDict [("error", VDict [("code", VStr "NotFound")])].

Definition second_incident_id : string :=
  "/subscriptions/sub1/resourceGroups/rg1/providers/Microsoft.OperationalInsights/workspaces/ws1/providers/Microsoft.SecurityInsights/incidents/inc2".

Definition second_incident_document : value :=
  VDict [ ("id", VStr second_incident_id);
          ("properties",
            VDict [ ("title", VStr "Malware detected");
                    ("severity", VStr "Medium");
                    ("status", VStr "Active") ]) ].

Definition incidents_document : value :=
  VDict [("value", VList [Mock.incident_document; second_incident_document])].

Definition nameless_document : value :=
  VDict [("name", VStr "noid")].

(** The answer to a comment update; the service reports [success] false. *)
Definition comment_document : value :=
  VDict [ ("name", VStr "c2");
          ("success", VBool false);
          ("properties", VDict [("message", VStr "escalated")]) ].

Definition documents : list value :=
  (Mock.documents
   ++ [ bare_token_document; entities_document; comments_document;
        not_found_document; incidents_document; nameless_document;
        comment_document; VList [] ])%list.

Definition loads (s : string) : option value :=
  find (fun v => String.eqb (Mock.dumps v) s) documents.

Definition ok (v : value) : option response :=
  Some (mkResponse 200 (Mock.dumps v)).

Definition not_found : option response :=
  Some (mkResponse 404 (Mock.dumps not_found_document)).

Definition net (history : list request) (rq : request) : option response :=
  let url := req_url rq in
  let inc1 := Mock.workspace_url ++ "/inc1" in
  if String.eqb url (Mock.token_url "contoso") then ok Mock.token_document
  else if String.eqb url (Mock.token_url "fabrikam") then ok bare_token_document
  else if String.eqb url (Mock.token_url "listy") then ok (VList [])
  else if String.eqb url (Mock.token_url "offline") then None
  else
    match req_method rq with
    | GET =>
        if String.eqb url Mock.workspace_url then ok incidents_document
        else if String.eqb url inc1 then ok Mock.incident_document
        else if String.eqb url (Mock.workspace_url ++ "/noid")
        then ok nameless_document
        else if String.eqb url (inc1 ++ "/comments") then ok comments_document
        else not_found
    | POST =>
        if String.eqb url (inc1 ++ "/entities") then ok entities_document
        else not_found
    | PUT =>
        if String.prefix (inc1 ++ "/comments/") url then ok comment_document
        else if String.eqb url inc1 then ok Mock.closed_document
        else not_found
    end.

(** An application object whose session carries a token. *)
Definition signed_in : app :=
  mkApp (Some [("Authorization", "Bearer eyJ0eXAi"); ("cache-control", "no-cache")])
    [] 0.

(** The arguments of an action on one incident, with the two flags. *)
Definition incident_args (tenant incident get_entities get_comments : string)
  : kwargs :=
  (Mock.credentials tenant
   ++ [ ("incident_id", incident); ("get_entities", get_entities);
        ("get_comments", get_comments) ])%list.

(** The arguments of [get_incidents], with the two flags. *)
Definition list_args (status get_entities get_comments : string) : kwargs :=
  (Mock.list_args "contoso" status EmptyString
   ++ [("get_entities", get_entities); ("get_comments", get_comments)])%list.

(** The arguments of [add_comment] on the incident [inc1]. *)
Definition comment_args (tenant comment : string) : kwargs :=
  (Mock.credentials tenant
   ++ [("incident_id", "inc1"); ("comment", comment)])%list.

End Lab.

(** ** The class [AzureSentinel] *)

Section App.

(** The remote side: the answer to a request, given the requests sent
    before it (newest first); [None] when the transport fails. *)
Variable net : list request -> request -> option response.

(** [json.loads] ([None] when it raises) and [json.dumps]. *)
Variable json_loads : string -> option value.
Variable json_dumps : value -> string.

(** [str(v)] for an object that is neither a string, [None] nor a bool. *)
Variable py_str : value -> string.

(** [str(uuid.uuid4())], by the number of identifiers drawn before. *)
Variable uuid4 : nat -> string.

(** The headers of a new [requests.Session]. *)
Variable default_headers : list (string * string).

(** [self.azure_url], set by [__init__]. *)
Definition azure_url : string := "https://management.azure.com".

(** A value inside an f-string. *)
Definition py_format (v : value) : string :=
  match v with
  | VStr s => s
  | VNone => "None"
  | VBool true => "True"
  | VBool false => "False"
  | _ => py_str v
  end.

(** [res.json()]. *)
Definition res_json (res : response) : result value :=
  match json_loads (text res) with
  | Some v => Ok v
  | None => Raise JSONDecodeError
  end.

(** [json.loads(s)]. *)
Definition loads (s : string) : result value :=
  match json_loads s with
  | Some v => Ok v
  | None => Raise JSONDecodeError
  end.

(** [self.s = requests.Session()]. *)
Definition new_session : M unit :=
  fun st => (Ok tt, mkApp (Some default_headers) (sent st) (drawn st)).

(** [self.s.headers = h]. *)
Definition set_session_headers (h : list (string * string)) : M unit :=
  fun st =>
    match session st with
    | None => (Raise AttributeError, st)
    | Some _ => (Ok tt, mkApp (Some h) (sent st) (drawn st))
    end.

(** [self.s.get], [self.s.post], [self.s.put]: the request goes out with
    the headers of the session, and is recorded. *)
Definition session_request (m : http_method) (url : string)
    (params headers : list (string * string)) (body : payload) : M response :=
  fun st =>
    match session st with
    | None => (Raise AttributeError, st)
    | Some h =>
        let rq := mkRequest m url params headers h body in
        let st' := mkApp (session st) (rq :: sent st) (drawn st) in
        match net (sent st) rq with
        | Some res => (Ok res, st')
        | None => (Raise RequestException, st')
        end
    end.

(** [str(uuid.uuid4())]. *)
Definition fresh_uuid : M string :=
  fun st => (Ok (uuid4 (drawn st)), mkApp (session st) (sent st) (S (drawn st))).

Definition auth_url (tenant_id : string) : string :=
  "https://login.microsoftonline.com/" ++ tenant_id ++ "/oauth2/v2.0/token".

Definition auth_data (client_id client_secret : string)
  : list (string * string) :=
  [ ("grant_type", "client_credentials");
    ("client_id", client_id);
    ("client_secret", client_secret);
    ("scope", azure_url ++ "/.default") ].

Definition auth_headers : list (string * string) :=
  [ ("Content-Type", "application/x-www-form-urlencoded");
    ("cache-control", "no-cache") ].

(** The headers [authenticate] stores on the session. *)
Definition bearer_headers (access_token : value) : list (string * string) :=
  [ ("Authorization", "Bearer " ++ py_format access_token);
    ("cache-control", "no-cache") ].

(** [authenticate] (lines 25-49). The call of [self.logger.error] on line
    44 takes [res.json()] as an argument, so the body is decoded before
    the failure is returned. *)
Definition authenticate (tenant_id client_id client_secret : string)
  : M auth_result :=
  new_session ;;;
  res <- session_request POST (auth_url tenant_id) []
           auth_headers (FormData (auth_data client_id client_secret)) ;;
  if negb (status_code res =? 200) then
    lift (res_json res) ;;;
    ret (mkAuth false (text res))
  else
    body <- lift (res_json res) ;;
    access_token <- lift (py_get body "access_token" VNone) ;;
    set_session_headers (bearer_headers access_token) ;;;
    ret (mkAuth true (text res)).

(** The token request. A new session carries the default headers. *)
Definition token_request (tenant_id client_id client_secret : string)
  : request :=
  mkRequest POST (auth_url tenant_id) [] auth_headers default_headers
    (FormData (auth_data client_id client_secret)).

(** The application object once the token request is out. *)
Definition token_requested (tenant_id client_id client_secret : string)
    (st : app) : app :=
  mkApp (Some default_headers)
    (token_request tenant_id client_id client_secret :: sent st) (drawn st).

(** [extract_entities] (lines 51-60). *)
Definition extract_entities (incident_uri : value) : M value :=
  let entities_url := azure_url ++ py_format incident_uri ++ "/entities" in
  let params := [("api-version", "2019-01-01-preview")] in
  res <- session_request POST entities_url params [] NoBody ;;
  body <- lift (res_json res) ;;
  lift (py_get body "entities" (VList [])).

(** [extract_comments] (lines 62-71). *)
Definition extract_comments (incident_uri : value) : M value :=
  let comments_url := azure_url ++ py_format incident_uri ++ "/comments" in
  let params := [("api-version", "2020-01-01")] in
  res <- session_request GET comments_url params [] NoBody ;;
  body <- lift (res_json res) ;;
  lift (py_get body "value" (VList [])).

(** The URL of the incidents of a workspace (lines 82, 134, 174, 195):
    the three path segments are read in this order. *)
Definition incidents_url (kw : kwargs) : result string :=
  match kw_item kw "subscription_id" with
  | Raise e => Raise e
  | Ok subscription_id =>
  match kw_item kw "resource_group_name" with
  | Raise e => Raise e
  | Ok resource_group_name =>
  match kw_item kw "workspace_name" with
  | Raise e => Raise e
  | Ok workspace_name =>
      Ok (azure_url ++ "/subscriptions/" ++ subscription_id
          ++ "/resourceGroups/" ++ resource_group_name
          ++ "/providers/Microsoft.OperationalInsights/workspaces/"
          ++ workspace_name
          ++ "/providers/Microsoft.SecurityInsights/incidents")
  end end end.

(** One clause of the status filter (lines 89 and 96). *)
Definition status_clause (x : string) : string :=
  "properties/status eq '" ++ PyStr.strip x ++ "'".

(** The filter built on lines 86-99 from [kwargs["status"]] and
    [kwargs["last_modified"]]. The second branch builds [status_filters]
    again and does not use it. *)
Definition build_query_filter (status last_modified : string) : string :=
  let query_filter := EmptyString in
  let query_filter :=
    if PyStr.truthy status then
      let status_filters := map status_clause (PyStr.split "," status) in
      "( " ++ PyStr.join " or " status_filters ++ " )"
    else query_filter in
  let query_filter :=
    if PyStr.truthy last_modified then
      let status_filters := map status_clause (PyStr.split "," status) in
      query_filter ++ " and (properties/lastModifiedTimeUtc ge "
        ++ last_modified ++ "Z)"
    else query_filter in
  query_filter.

(** The reading of [get_incidents] under which the filter built by the
    status branch is dropped when [last_modified] is given: it does not
    occur in the final filter. *)
Definition earlier_filter_discarded (status last_modified : string) : Prop :=
  PyStr.contains (build_query_filter status EmptyString)
    (build_query_filter status last_modified) = false.

(** The query parameters of the incidents request (lines 83, 101-102). *)
Definition incidents_params (query_filter : string)
  : list (string * string) :=
  let params := [("api-version", "2020-01-01")] in
  if PyStr.truthy query_filter then params ++ [("$filter", query_filter)]
  else params.

(** [kwargs.get(flag, "").lower() == "true"] (lines 111, 117, 143, 147). *)
Definition flag_set (kw : kwargs) (flag : string) : bool :=
  String.eqb (PyStr.lower (kw_get kw flag EmptyString)) "true".

(** [incident[key] = await extract(incident["id"])]. *)
Definition enrich_incident (key : string) (extract : value -> M value)
    (incident : value) : M value :=
  incident_id <- lift (py_getitem incident "id") ;;
  x <- extract incident_id ;;
  lift (py_setitem incident key x).

(** The loops of lines 112-114 and 118-120 over [incidents]: a list
    yields its elements, which the body updates in place; a dict yields
    its keys and a string its characters, on which the body raises; the
    other objects are not iterable. The log call of the body reads
    [incident['id']] before the assignment does. *)
Definition enrich_incidents (key : string) (extract : value -> M value)
    (incidents : value) : M value :=
  let body incident :=
    lift (py_getitem incident "id") ;;;
    enrich_incident key extract incident in
  match incidents with
  | VList l =>
      l' <- for_each body l ;;
      ret (VList l')
  | VDict d =>
      for_each body (map (fun kv => VStr (fst kv)) d) ;;;
      ret incidents
  | VStr s =>
      for_each body (map VStr (PyStr.chars s)) ;;;
      ret incidents
  | _ => raise TypeError
  end.

(** Lines 106-122 of [get_incidents]: the answer to the incidents
    request, and the enrichment. *)
Definition read_incidents (kw : kwargs) (res : response) : M value :=
  if negb (status_code res =? 200) then ret (VStr (text res))
  else
    body <- lift (res_json res) ;;
    incidents <- lift (py_getitem body "value") ;;
    incidents <-
      (if flag_set kw "get_entities"
       then enrich_incidents "entities" extract_entities incidents
       else ret incidents) ;;
    incidents <-
      (if flag_set kw "get_comments"
       then enrich_incidents "comments" extract_comments incidents
       else ret incidents) ;;
    ret (VStr (json_dumps incidents)).

(** Lines 82-122 of [get_incidents]: the incidents request. *)
Definition list_incidents (kw : kwargs) : M value :=
  url <- lift (incidents_url kw) ;;
  status <- lift (kw_item kw "status") ;;
  last_modified <- lift (kw_item kw "last_modified") ;;
  let query_filter := build_query_filter status last_modified in
  res <- session_request GET url (incidents_params query_filter)
           [] NoBody ;;
  read_incidents kw res.

(** [get_incidents] (lines 73-122). *)
Definition get_incidents (kw : kwargs) : M value :=
  tenant_id <- lift (kw_item kw "tenant_id") ;;
  client_id <- lift (kw_item kw "client_id") ;;
  client_secret <- lift (kw_item kw "client_secret") ;;
  auth <- authenticate tenant_id client_id client_secret ;;
  if negb (success auth) then
    ret (VDict [("error", VStr (message auth))])
  else list_incidents kw.

(** The string returned on line 127. *)
Definition no_incident_id : string :=
  "{" ++ PyStr.dq ++ "success" ++ PyStr.dq ++ ": false, "
      ++ PyStr.dq ++ "error" ++ PyStr.dq ++ ": "
      ++ PyStr.dq ++ "No incident ID supplied" ++ PyStr.dq ++ "}".

(** The URL of one incident (lines 134 and 174). *)
Definition incident_url (kw : kwargs) : result string :=
  match incidents_url kw with
  | Raise e => Raise e
  | Ok url =>
      match kw_item kw "incident_id" with
      | Raise e => Raise e
      | Ok incident_id => Ok (url ++ "/" ++ incident_id)
      end
  end.

(** Lines 138-150 of [get_incident]: the answer to the incident request,
    and the enrichment. *)
Definition read_incident (kw : kwargs) (res : response) : M string :=
  if negb (status_code res =? 200) then ret (text res)
  else
    incident <- lift (res_json res) ;;
    incident <-
      (if flag_set kw "get_entities"
       then enrich_incident "entities" extract_entities incident
       else ret incident) ;;
    incident <-
      (if flag_set kw "get_comments"
       then enrich_incident "comments" extract_comments incident
       else ret incident) ;;
    ret (json_dumps incident).

(** Lines 134-150 of [get_incident]: the incident request. *)
Definition fetch_incident (kw : kwargs) : M string :=
  url <- lift (incident_url kw) ;;
  res <- session_request GET url [("api-version", "2020-01-01")]
           [] NoBody ;;
  read_incident kw res.

(** [get_incident] (lines 124-150). The result of [authenticate] is bound
    to [auth] and not read. *)
Definition get_incident (kw : kwargs) : M string :=
  if negb (PyStr.truthy (kw_get kw "incident_id" EmptyString)) then
    ret no_incident_id
  else
    tenant_id <- lift (kw_item kw "tenant_id") ;;
    client_id <- lift (kw_item kw "client_id") ;;
    client_secret <- lift (kw_item kw "client_secret") ;;
    auth <- authenticate tenant_id client_id client_secret ;;
    fetch_incident kw.

(** The list [close_reason] of line 159. *)
Definition split_close_reason (close_reason : string) : list string :=
  map PyStr.strip (PyStr.split "-" close_reason).

(** The dict [close_data] of lines 161-172, from the values read for it. *)
Definition close_data (etag : string) (title severity : value)
    (close_reason : list string) (close_comment : string) : value :=
  let properties :=
    [ ("title", title);
      ("status", VStr "Closed");
      ("severity", severity);
      ("classification", VStr (nth 0 close_reason EmptyString));
      ("classificationComment", VStr close_comment) ] in
  let properties :=
    if (1 <? length close_reason)%nat
    then Dict.set "classificationReason"
           (VStr (nth 1 close_reason EmptyString)) properties
    else properties in
  VDict [ ("etag", VStr etag); ("properties", VDict properties) ].

(** Lines 159-172: the reads, in the order the dict display makes them. *)
Definition build_close_data (kw : kwargs) (incident : value) : result value :=
  match kw_item kw "close_reason" with
  | Raise e => Raise e
  | Ok raw =>
  let close_reason := split_close_reason raw in
  match py_get incident "etag" (VStr EmptyString) with
  | Raise e => Raise e
  | Ok etag =>
  match py_strip_chars PyStr.dq etag with
  | Raise e => Raise e
  | Ok etag =>
  match py_getitem incident "properties" with
  | Raise e => Raise e
  | Ok properties =>
  match py_getitem properties "title" with
  | Raise e => Raise e
  | Ok title =>
  match py_getitem properties "severity" with
  | Raise e => Raise e
  | Ok severity =>
  match kw_item kw "close_comment" with
  | Raise e => Raise e
  | Ok close_comment =>
      Ok (close_data etag title severity close_reason close_comment)
  end end end end end end end.

(** [result = res.json(); result["success"] = True; json.dumps(result)]
    (lines 181-184 and 205-208). *)
Definition with_success (res : response) : result string :=
  match res_json res with
  | Raise e => Raise e
  | Ok body =>
      match py_setitem body "success" (VBool true) with
      | Raise e => Raise e
      | Ok body' => Ok (json_dumps body')
      end
  end.

(** Lines 178-184 of [close_incident]: the answer to the update. *)
Definition read_closed (res : response) : M string :=
  if negb (status_code res =? 200) then ret (text res)
  else lift (with_success res).

(** [close_incident] (lines 152-184). *)
Definition close_incident (kw : kwargs) : M string :=
  fetched <- get_incident kw ;;
  incident <- lift (loads fetched) ;;
  has_error <- lift (py_in "error" incident) ;;
  if (has_error : bool) then ret (json_dumps incident)
  else
    data <- lift (build_close_data kw incident) ;;
    url <- lift (incident_url kw) ;;
    res <- session_request PUT url [("api-version", "2020-01-01")]
             [] (JsonBody data) ;;
    read_closed res.

(** The URL of the comments of one incident (line 195). *)
Definition comments_url (kw : kwargs) : result string :=
  match incident_url kw with
  | Raise e => Raise e
  | Ok url => Ok (url ++ "/comments")
  end.

(** [add_comment] (lines 186-208). *)
Definition add_comment (kw : kwargs) : M value :=
  tenant_id <- lift (kw_item kw "tenant_id") ;;
  client_id <- lift (kw_item kw "client_id") ;;
  client_secret <- lift (kw_item kw "client_secret") ;;
  auth <- authenticate tenant_id client_id client_secret ;;
  if negb (success auth) then
    ret (VDict [("error", VStr (message auth))])
  else
    url <- lift (comments_url kw) ;;
    comment_id <- fresh_uuid ;;
    comment <- lift (kw_item kw "comment") ;;
    let comment_data :=
      VDict [("properties", VDict [("message", VStr comment)])] in
    res <- session_request PUT (url ++ "/" ++ comment_id)
             [("api-version", "2020-01-01")] [] (JsonBody comment_data) ;;
    if negb (status_code res =? 200) then ret (VStr (text res))
    else
      r <- lift (with_success res) ;;
      ret (VStr r).

(** ** The requests a computation sends

    [emits P m]: whatever the application object, [m] only adds requests
    to the record, keeps the earlier ones in place, each request it adds
    satisfies [P], and a session that is set stays set. *)

Definition emits {A : Type} (P : request -> Prop) (m : M A) : Prop :=
  forall st, exists new,
    sent (snd (m st)) = (new ++ sent st)%list
    /\ Forall P new
    /\ (session st <> None -> session (snd (m st)) <> None).

(** Every request of [authenticate], of the extractors and of
    [get_incident] is a [GET] or a [POST]. *)
Definition not_put (r : request) : Prop := req_method r <> PUT.

(** ** Requests by name *)

(** The application object once [rq] has gone out. *)
Definition record (rq : request) (st : app) : app :=
  mkApp (session st) (rq :: sent st) (drawn st).

(** A call on a resource of the workspace: API version 2020-01-01, no
    headers of its own. *)
Definition resource_request (m : http_method) (url : string)
    (h : list (string * string)) (body : payload) : request :=
  mkRequest m url [("api-version", "2020-01-01")] [] h body.

(** The request of [extract_entities] (lines 53-56). *)
Definition entities_request (h : list (string * string)) (incident_uri : value)
  : request :=
  mkRequest POST (azure_url ++ py_format incident_uri ++ "/entities")
    [("api-version", "2019-01-01-preview")] [] h NoBody.

(** The request of [extract_comments] (lines 64-67). *)
Definition comments_request (h : list (string * string)) (incident_uri : value)
  : request :=
  resource_request GET (azure_url ++ py_format incident_uri ++ "/comments")
    h NoBody.

(** [d.get(k, default)] on the association list of a dict. *)
Definition get_default (k : string) (default : value)
    (d : list (string * value)) : value :=
  match Dict.get k d with
  | Some x => x
  | None => default
  end.

(** [carries h m]: started with the session headers [h], [m] leaves them
    as they are, only adds requests to the record, and each request it
    adds goes out with [h]. *)
Definition carries {A : Type} (h : list (string * string)) (m : M A) : Prop :=
  forall st, session st = Some h ->
    session (snd (m st)) = Some h
    /\ exists new,
         sent (snd (m st)) = (new ++ sent st)%list
         /\ Forall (fun r => req_session_headers r = h) new.

(** [one_update m]: [m] only adds requests to the record, and at most
    one of them is a [PUT], which is then the last one sent. *)
Definition one_update {A : Type} (m : M A) : Prop :=
  forall st, exists new,
    sent (snd (m st)) = (new ++ sent st)%list
    /\ (Forall not_put new
        \/ exists rq older,
             new = rq :: older
             /\ req_method rq = PUT
             /\ Forall not_put older).

(** ** Facts about the string functions *)

Lemma split_not_nil (sep : ascii) (s : string) : PyStr.split sep s <> [].
Proof.
  destruct s as [|c s]; simpl; [discriminate|].
  destruct (Ascii.eqb c sep); [discriminate|].
  destruct (PyStr.split sep s); discriminate.
Qed.

(** Joining the pieces with the separator gives the string back. *)
Lemma join_split (sep : ascii) (s : string) :
  PyStr.join (String sep EmptyString) (PyStr.split sep s) = s.
Proof.
  unfold PyStr.join.
  induction s as [|c s IH]; simpl; [reflexivity|].
  destruct (Ascii.eqb_spec c sep) as [->|Hne].
  - pose proof (split_not_nil sep s) as Hnil.
    destruct (PyStr.split sep s) as [|p ps]; [contradiction|].
    simpl in *. now rewrite IH.
  - pose proof (split_not_nil sep s) as Hnil.
    destruct (PyStr.split sep s) as [|p ps]; [contradiction|].
    destruct ps as [|q qs]; simpl in *; now rewrite <- IH.
Qed.

(** No piece contains the separator. *)
Lemma split_pieces (sep : ascii) (s : string) :
  Forall (fun p => ~ In sep (list_ascii_of_string p)) (PyStr.split sep s).
Proof.
  induction s as [|c s IH]; simpl.
  - constructor; [intros []|constructor].
  - destruct (Ascii.eqb_spec c sep) as [->|Hne].
    + constructor; [intros []|exact IH].
    + destruct (PyStr.split sep s) as [|p ps].
      * constructor; [|constructor]. simpl. intros [H|[]]. now apply Hne.
      * inversion IH as [|? ? Hp Hps]; subst.
        constructor; [|exact Hps].
        simpl. intros [H|H]; [now apply Hne|now apply Hp].
Qed.

(** A string without the separator is its own single piece. *)
Lemma split_absent (sep : ascii) (s : string) :
  ~ In sep (list_ascii_of_string s) -> PyStr.split sep s = [s].
Proof.
  induction s as [|c s IH]; simpl; intros Hno; [reflexivity|].
  destruct (Ascii.eqb_spec c sep) as [->|Hne].
  - exfalso. apply Hno. now left.
  - rewrite IH; [reflexivity|]. intros H. apply Hno. now right.
Qed.

(** [sep in s] is false exactly when no character of [s] is [sep]. *)
Lemma contains_char_false (c : ascii) (s : string) :
  PyStr.contains (String c EmptyString) s = false ->
  ~ In c (list_ascii_of_string s).
Proof.
  induction s as [|d s IH]; simpl; intros H; [intros []|].
  apply orb_false_iff in H as [Hp Hc].
  intros [->|Hin].
  - destruct (ascii_dec c c) as [_|Hne]; [now destruct s|now apply Hne].
  - now apply IH.
Qed.

(** What [lstrip] leaves does not start with a stripped character. *)
Lemma lstrip_head (p : ascii -> bool) (s : string) (c : ascii) (r : string) :
  PyStr.lstrip p s = String c r -> p c = false.
Proof.
  induction s as [|d s IH]; simpl; [discriminate|].
  destruct (p d) eqn:Hd; [exact IH|].
  intros H. injection H as -> _. exact Hd.
Qed.

(** [rstrip] removes nothing from the front. *)
Lemma rstrip_head (p : ascii -> bool) (s : string) (c : ascii) (r : string) :
  PyStr.rstrip p s = String c r -> exists r', s = String c r'.
Proof.
  destruct s as [|d s]; simpl; [discriminate|].
  destruct (PyStr.rstrip p s); [destruct (p d)|]; try discriminate;
    intros H; injection H as -> _; now eexists.
Qed.

(** What [rstrip] leaves does not end with a stripped character. *)
Lemma rstrip_last (p : ascii -> bool) (s r : string) (c : ascii) :
  PyStr.rstrip p s = (r ++ String c EmptyString)%string -> p c = false.
Proof.
  revert r. induction s as [|d s IH]; simpl; intros r.
  - destruct r; discriminate.
  - destruct (PyStr.rstrip p s) as [|e t] eqn:Hs.
    + destruct (p d) eqn:Hd; [destruct r; discriminate|].
      destruct r as [|x r]; simpl; intros H.
      * injection H as <-. exact Hd.
      * injection H as _ H. destruct r; discriminate.
    + destruct r as [|x r]; simpl; intros H; [discriminate|].
      injection H as _ H. now apply (IH r).
Qed.

(** [strip] leaves a string that neither starts nor ends with a stripped
    character. *)
Lemma strip_with_head (p : ascii -> bool) (s : string) (c : ascii) (r : string) :
  PyStr.strip_with p s = String c r -> p c = false.
Proof.
  unfold PyStr.strip_with. intros H.
  destruct (rstrip_head _ _ _ _ H) as [r' Hr'].
  now apply (lstrip_head p s c r').
Qed.

Lemma strip_with_last (p : ascii -> bool) (s r : string) (c : ascii) :
  PyStr.strip_with p s = (r ++ String c EmptyString)%string -> p c = false.
Proof. unfold PyStr.strip_with. apply rstrip_last. Qed.

(** Stripping removes a prefix and a suffix made of stripped characters. *)
Lemma lstrip_decompose (p : ascii -> bool) (s : string) :
  exists pre, s = (pre ++ PyStr.lstrip p s)%string
              /\ forallb p (list_ascii_of_string pre) = true.
Proof.
  induction s as [|c s [pre [IH1 IH2]]]; simpl.
  - now exists EmptyString.
  - destruct (p c) eqn:Hc.
    + exists (String c pre). split; simpl; [now f_equal|now rewrite Hc].
    + now exists EmptyString.
Qed.

Lemma rstrip_decompose (p : ascii -> bool) (s : string) :
  exists post, s = (PyStr.rstrip p s ++ post)%string
               /\ forallb p (list_ascii_of_string post) = true.
Proof.
  induction s as [|c s [post [IH1 IH2]]]; simpl.
  - now exists EmptyString.
  - destruct (PyStr.rstrip p s) as [|d r] eqn:Hr.
    + simpl in IH1. destruct (p c) eqn:Hc.
      * exists (String c post). split; simpl; [now f_equal|now rewrite Hc].
      * exists post. split; simpl; [now f_equal|exact IH2].
    + exists post. split; simpl; [now f_equal|exact IH2].
Qed.

Lemma strip_with_decompose (p : ascii -> bool) (s : string) :
  exists pre post,
    s = (pre ++ PyStr.strip_with p s ++ post)%string
    /\ forallb p (list_ascii_of_string pre) = true
    /\ forallb p (list_ascii_of_string post) = true.
Proof.
  destruct (lstrip_decompose p s) as [pre [H1 H2]].
  destruct (rstrip_decompose p (PyStr.lstrip p s)) as [post [H3 H4]].
  exists pre, post. unfold PyStr.strip_with.
  now rewrite <- H3, <- H1.
Qed.

(** ** Running a computation step by step *)

Lemma bind_ok {A B : Type} (m : M A) (k : A -> M B) (st st1 : app) (a : A) :
  m st = (Ok a, st1) -> bind m k st = k a st1.
Proof. unfold bind. now intros ->. Qed.

Lemma bind_lift_ok {A B : Type} (r : result A) (k : A -> M B) (st : app) (a : A) :
  r = Ok a -> bind (lift r) k st = k a st.
Proof. now intros ->. Qed.

(** ** Requests, step by step *)

Lemma emits_ret {A : Type} (P : request -> Prop) (a : A) : emits P (ret a).
Proof. intros st. now exists []. Qed.

Lemma emits_raise {A : Type} (P : request -> Prop) (e : exn) :
  emits P (@raise A e).
Proof. intros st. now exists []. Qed.

Lemma emits_lift {A : Type} (P : request -> Prop) (r : result A) :
  emits P (lift r).
Proof. intros st. now exists []. Qed.

Lemma emits_bind {A B : Type} (P : request -> Prop) (m : M A) (k : A -> M B) :
  emits P m -> (forall a, emits P (k a)) -> emits P (bind m k).
Proof.
  intros Hm Hk st. unfold bind.
  destruct (Hm st) as [new1 [E1 [F1 S1]]].
  destruct (m st) as [[a|e] st1]; simpl in *.
  - destruct (Hk a st1) as [new2 [E2 [F2 S2]]].
    exists (new2 ++ new1)%list. repeat split.
    + now rewrite E2, E1, app_assoc.
    + apply Forall_app. now split.
    + auto.
  - now exists new1.
Qed.

Lemma emits_if {A : Type} (P : request -> Prop) (b : bool) (m1 m2 : M A) :
  emits P m1 -> emits P m2 -> emits P (if b then m1 else m2).
Proof. now destruct b. Qed.

Lemma emits_new_session (P : request -> Prop) : emits P new_session.
Proof. intros st. exists []. simpl. now repeat split. Qed.

Lemma emits_set_session_headers (P : request -> Prop) h :
  emits P (set_session_headers h).
Proof.
  intros st. exists []. unfold set_session_headers.
  destruct (session st) eqn:E; simpl; repeat split; auto; discriminate.
Qed.

Lemma emits_fresh_uuid (P : request -> Prop) : emits P fresh_uuid.
Proof. intros st. now exists []. Qed.

Lemma emits_session_request (P : request -> Prop) m url params headers body :
  (forall h, P (mkRequest m url params headers h body)) ->
  emits P (session_request m url params headers body).
Proof.
  intros HP st. unfold session_request.
  destruct (session st) as [h|] eqn:E; [|now exists []].
  exists [mkRequest m url params headers h body].
  destruct (net _ _); simpl; repeat split; auto; discriminate.
Qed.

Lemma emits_for_each {A B : Type} (P : request -> Prop) (body : A -> M B)
    (l : list A) :
  (forall x, emits P (body x)) -> emits P (for_each body l).
Proof.
  intros Hb. induction l as [|x l IH]; simpl.
  - apply emits_ret.
  - apply emits_bind; [apply Hb|]. intros y.
    apply emits_bind; [exact IH|]. intros l'. apply emits_ret.
Qed.

Create HintDb emits discriminated.
#[local] Hint Resolve emits_ret emits_raise emits_lift emits_if
  emits_new_session emits_set_session_headers emits_fresh_uuid
  emits_for_each : emits.

(** Breaks a computation into its steps, down to the requests. *)
Ltac emits_steps :=
  repeat first
    [ solve [auto with emits]
    | apply emits_bind; [|intros ?]
    | apply emits_if
    | apply emits_for_each; intros ?
    | apply emits_session_request; intros ? ].

Lemma emits_weaken {A : Type} (P Q : request -> Prop) (m : M A) :
  (forall r, P r -> Q r) -> emits P m -> emits Q m.
Proof.
  intros HPQ Hm st. destruct (Hm st) as [new [E [F S]]].
  exists new. repeat split; auto.
  eapply Forall_impl; eauto.
Qed.

Lemma emits_authenticate tenant_id client_id client_secret :
  emits not_put (authenticate tenant_id client_id client_secret).
Proof. unfold authenticate. emits_steps. unfold not_put. simpl. discriminate. Qed.

Lemma emits_extract_entities uri : emits not_put (extract_entities uri).
Proof. unfold extract_entities. emits_steps. unfold not_put. simpl. discriminate. Qed.

Lemma emits_extract_comments uri : emits not_put (extract_comments uri).
Proof. unfold extract_comments. emits_steps. unfold not_put. simpl. discriminate. Qed.

Lemma emits_enrich_incident (P : request -> Prop) key extract incident :
  (forall uri, emits P (extract uri)) ->
  emits P (enrich_incident key extract incident).
Proof. intros H. unfold enrich_incident. emits_steps. Qed.

#[local] Hint Resolve emits_authenticate emits_extract_entities
  emits_extract_comments emits_enrich_incident : emits.

Lemma emits_read_incident kw res : emits not_put (read_incident kw res).
Proof. unfold read_incident. emits_steps. Qed.

#[local] Hint Resolve emits_read_incident : emits.

Lemma emits_fetch_incident kw : emits not_put (fetch_incident kw).
Proof. unfold fetch_incident. emits_steps. unfold not_put. simpl. discriminate. Qed.

#[local] Hint Resolve emits_fetch_incident : emits.

Lemma emits_get_incident kw : emits not_put (get_incident kw).
Proof. unfold get_incident. emits_steps. Qed.

Lemma emits_enrich_incidents (P : request -> Prop) key extract incidents :
  (forall uri, emits P (extract uri)) ->
  emits P (enrich_incidents key extract incidents).
Proof.
  intros H. unfold enrich_incidents.
  destruct incidents; emits_steps; now apply emits_enrich_incident.
Qed.

(** ** [authenticate], case by case *)

Lemma authenticate_run tenant_id client_id client_secret st :
  authenticate tenant_id client_id client_secret st =
  let st1 := token_requested tenant_id client_id client_secret st in
  match net (sent st) (token_request tenant_id client_id client_secret) with
  | None => (Raise RequestException, st1)
  | Some res =>
      if negb (status_code res =? 200) then
        match json_loads (text res) with
        | Some _ => (Ok (mkAuth false (text res)), st1)
        | None => (Raise JSONDecodeError, st1)
        end
      else
        match json_loads (text res) with
        | Some (VDict d) =>
            let access_token :=
              match Dict.get "access_token" d with
              | Some x => x
              | None => VNone
              end in
            (Ok (mkAuth true (text res)),
             mkApp (Some (bearer_headers access_token)) (sent st1) (drawn st1))
        | Some _ => (Raise AttributeError, st1)
        | None => (Raise JSONDecodeError, st1)
        end
  end.
Proof.
  unfold authenticate, bind, new_session, session_request, token_requested,
    token_request, lift, res_json, ret. simpl.
  destruct (net _ _) as [res|]; [|reflexivity].
  destruct (negb (status_code res =? 200)).
  - now destruct (json_loads (text res)).
  - destruct (json_loads (text res)) as [[| | | | | |d]|]; try reflexivity.
    simpl. now destruct (Dict.get "access_token" d).
Qed.

(** A non-200 answer whose body is JSON: the failure is returned, with
    the raw body, and the session keeps its default headers. *)
Lemma authenticate_rejected tenant_id client_id client_secret st res v :
  net (sent st) (token_request tenant_id client_id client_secret) = Some res ->
  status_code res <> 200 ->
  json_loads (text res) = Some v ->
  authenticate tenant_id client_id client_secret st =
  (Ok (mkAuth false (text res)),
   token_requested tenant_id client_id client_secret st).
Proof.
  intros Hnet Hcode Hjson. rewrite authenticate_run. simpl.
  rewrite Hnet. apply Z.eqb_neq in Hcode. now rewrite Hcode, Hjson.
Qed.

(** A non-200 answer whose body is not JSON: the log call of line 44
    raises, and no failure is returned. *)
Lemma authenticate_rejected_not_json tenant_id client_id client_secret st res :
  net (sent st) (token_request tenant_id client_id client_secret) = Some res ->
  status_code res <> 200 ->
  json_loads (text res) = None ->
  authenticate tenant_id client_id client_secret st =
  (Raise JSONDecodeError,
   token_requested tenant_id client_id client_secret st).
Proof.
  intros Hnet Hcode Hjson. rewrite authenticate_run. simpl.
  rewrite Hnet. apply Z.eqb_neq in Hcode. now rewrite Hcode, Hjson.
Qed.

(** A 200 answer whose body is a JSON object: the token goes into the
    headers of the session. *)
Lemma authenticate_granted tenant_id client_id client_secret st res d :
  net (sent st) (token_request tenant_id client_id client_secret) = Some res ->
  status_code res = 200 ->
  json_loads (text res) = Some (VDict d) ->
  authenticate tenant_id client_id client_secret st =
  (Ok (mkAuth true (text res)),
   mkApp (Some (bearer_headers
                  (match Dict.get "access_token" d with
                   | Some x => x
                   | None => VNone
                   end)))
     (token_request tenant_id client_id client_secret :: sent st) (drawn st)).
Proof.
  intros Hnet Hcode Hjson. rewrite authenticate_run. simpl.
  now rewrite Hnet, Hcode, Hjson.
Qed.

(** When [authenticate] returns, [self.s] is set, exactly the token
    request has gone out, and no identifier has been drawn. *)
Lemma authenticate_returns tenant_id client_id client_secret st auth st1 :
  authenticate tenant_id client_id client_secret st = (Ok auth, st1) ->
  (exists h, session st1 = Some h)
  /\ sent st1 = token_request tenant_id client_id client_secret :: sent st
  /\ drawn st1 = drawn st.
Proof.
  rewrite authenticate_run. simpl.
  destruct (net _ _) as [res|]; [|discriminate].
  destruct (negb (status_code res =? 200)).
  - destruct (json_loads (text res)); [|discriminate].
    intros H. injection H as _ <-. simpl. eauto.
  - destruct (json_loads (text res)) as [[| | | | | |d]|]; try discriminate.
    intros H. injection H as _ <-. simpl. eauto.
Qed.

(** ** The request that follows a step *)

Lemma bind_session_request {A : Type} (P : request -> Prop) m url params
    headers body (k : response -> M A) st h :
  session st = Some h ->
  (forall res, emits P (k res)) ->
  exists later,
    sent (snd (bind (session_request m url params headers body) k st)) =
    (later ++ mkRequest m url params headers h body :: sent st)%list
    /\ Forall P later.
Proof.
  intros Hs Hk. unfold bind, session_request. rewrite Hs.
  destruct (net _ _) as [res|].
  - destruct (Hk res (mkApp (Some h)
                        (mkRequest m url params headers h body :: sent st)
                        (drawn st))) as [later [E [F _]]].
    exists later. now split.
  - now exists [].
Qed.

Lemma emits_read_incidents kw res : emits (fun _ => True) (read_incidents kw res).
Proof.
  unfold read_incidents. emits_steps;
    apply emits_enrich_incidents; intros uri;
    (eapply emits_weaken;
     [|first [apply emits_extract_entities|apply emits_extract_comments]]);
    easy.
Qed.

(** The incidents request of [get_incidents], once [authenticate] has
    returned success. *)
Lemma get_incidents_request kw st tenant_id client_id client_secret auth st1
    url status last_modified :
  kw_item kw "tenant_id" = Ok tenant_id ->
  kw_item kw "client_id" = Ok client_id ->
  kw_item kw "client_secret" = Ok client_secret ->
  authenticate tenant_id client_id client_secret st = (Ok auth, st1) ->
  success auth = true ->
  incidents_url kw = Ok url ->
  kw_item kw "status" = Ok status ->
  kw_item kw "last_modified" = Ok last_modified ->
  exists h later,
    session st1 = Some h
    /\ sent (snd (get_incidents kw st)) =
       (later
        ++ mkRequest GET url
             (incidents_params (build_query_filter status last_modified))
             [] h NoBody
        :: sent st1)%list.
Proof.
  intros Ht Hc Hs Hauth Hok Hurl Hstatus Hlm.
  destruct (authenticate_returns _ _ _ _ _ _ Hauth) as [[h Hh] _].
  unfold get_incidents.
  rewrite (bind_lift_ok _ _ _ _ Ht), (bind_lift_ok _ _ _ _ Hc),
    (bind_lift_ok _ _ _ _ Hs), (bind_ok _ _ _ _ _ Hauth), Hok.
  cbn [negb]. unfold list_incidents.
  rewrite (bind_lift_ok _ _ _ _ Hurl), (bind_lift_ok _ _ _ _ Hstatus),
    (bind_lift_ok _ _ _ _ Hlm).
  destruct (bind_session_request (fun _ => True) GET url
              (incidents_params (build_query_filter status last_modified))
              [] NoBody (read_incidents kw) st1 h Hh
              (emits_read_incidents kw)) as [later [E _]].
  now exists h, later.
Qed.

(** ** The filter of [get_incidents] *)

Lemma build_query_filter_status status :
  PyStr.truthy status = true ->
  build_query_filter status EmptyString =
  "( " ++ PyStr.join " or " (map status_clause (PyStr.split "," status)) ++ " )".
Proof. unfold build_query_filter. now intros ->. Qed.

Lemma build_query_filter_last_modified last_modified :
  PyStr.truthy last_modified = true ->
  build_query_filter EmptyString last_modified =
  " and (properties/lastModifiedTimeUtc ge " ++ last_modified ++ "Z)".
Proof. unfold build_query_filter. now intros ->. Qed.

Lemma build_query_filter_both status last_modified :
  PyStr.truthy status = true ->
  PyStr.truthy last_modified = true ->
  build_query_filter status last_modified =
  ("( " ++ PyStr.join " or " (map status_clause (PyStr.split "," status)) ++ " )")
  ++ " and (properties/lastModifiedTimeUtc ge " ++ last_modified ++ "Z)".
Proof. unfold build_query_filter. now intros -> ->. Qed.

(** A filter that is not empty is sent, after the API version. *)
Lemma incidents_params_filter query_filter :
  PyStr.truthy query_filter = true ->
  incidents_params query_filter =
  [("api-version", "2020-01-01"); ("$filter", query_filter)].
Proof. unfold incidents_params. now intros ->. Qed.

Lemma prefix_append s t : String.prefix s (s ++ t) = true.
Proof.
  induction s as [|c s IH]; simpl; [now destruct t|].
  destruct (ascii_dec c c) as [_|Hne]; [exact IH|now elim Hne].
Qed.

(** C2. In [get_incidents] with a status and an empty [last_modified],
    once [authenticate] has returned success, the request that follows
    the token request is the [GET] of the incidents whose [$filter] is
    the clauses [properties/status eq '<status, stripped>'] of the
    comma-separated statuses, joined by [" or "], between ["( "] and
    [" )"]; for ["New, Active"] it is the string of the specification. *)
Theorem get_incidents_status_filter kw st tenant_id client_id client_secret
    auth st1 url status :
  kw_item kw "tenant_id" = Ok tenant_id ->
  kw_item kw "client_id" = Ok client_id ->
  kw_item kw "client_secret" = Ok client_secret ->
  authenticate tenant_id client_id client_secret st = (Ok auth, st1) ->
  success auth = true ->
  incidents_url kw = Ok url ->
  kw_item kw "status" = Ok status ->
  PyStr.truthy status = true ->
  kw_item kw "last_modified" = Ok EmptyString ->
  let clause x := "properties/status eq '" ++ PyStr.strip x ++ "'" in
  let filter :=
    "( " ++ PyStr.join " or " (map clause (PyStr.split "," status)) ++ " )" in
  (exists h later,
     session st1 = Some h
     /\ sent (snd (get_incidents kw st)) =
        (later
         ++ mkRequest GET url
              [("api-version", "2020-01-01"); ("$filter", filter)]
              [] h NoBody
         :: sent st1)%list)
  /\ (status = "New, Active" ->
      filter = "( properties/status eq 'New' or properties/status eq 'Active' )").
Proof.
  intros Ht Hc Hs Hauth Hok Hurl Hstatus Hne Hlm clause filter. split.
  - destruct (get_incidents_request _ _ _ _ _ _ _ _ _ _
                Ht Hc Hs Hauth Hok Hurl Hstatus Hlm) as [h [later [Hh E]]].
    exists h, later. split; [exact Hh|].
    rewrite E, (build_query_filter_status _ Hne).
    now rewrite incidents_params_filter.
  - intros ->. reflexivity.
Qed.

(** C3. In [get_incidents] with a status and a [last_modified], once
    [authenticate] has returned success, the [$filter] of the incidents
    request is the status clause followed by
    [" and (properties/lastModifiedTimeUtc ge "], the value and ["Z)"]. *)
Theorem get_incidents_status_and_last_modified_filter kw st tenant_id
    client_id client_secret auth st1 url status last_modified :
  kw_item kw "tenant_id" = Ok tenant_id ->
  kw_item kw "client_id" = Ok client_id ->
  kw_item kw "client_secret" = Ok client_secret ->
  authenticate tenant_id client_id client_secret st = (Ok auth, st1) ->
  success auth = true ->
  incidents_url kw = Ok url ->
  kw_item kw "status" = Ok status ->
  PyStr.truthy status = true ->
  kw_item kw "last_modified" = Ok last_modified ->
  PyStr.truthy last_modified = true ->
  let clause x := "properties/status eq '" ++ PyStr.strip x ++ "'" in
  let status_filter :=
    "( " ++ PyStr.join " or " (map clause (PyStr.split "," status)) ++ " )" in
  let filter :=
    status_filter ++ " and (properties/lastModifiedTimeUtc ge "
      ++ last_modified ++ "Z)" in
  exists h later,
    session st1 = Some h
    /\ sent (snd (get_incidents kw st)) =
       (later
        ++ mkRequest GET url
             [("api-version", "2020-01-01"); ("$filter", filter)]
             [] h NoBody
        :: sent st1)%list.
Proof.
  intros Ht Hc Hs Hauth Hok Hurl Hstatus Hne Hlm Hlmne clause status_filter
    filter.
  destruct (get_incidents_request _ _ _ _ _ _ _ _ _ _
              Ht Hc Hs Hauth Hok Hurl Hstatus Hlm) as [h [later [Hh E]]].
  exists h, later. split; [exact Hh|].
  rewrite E, (build_query_filter_both _ _ Hne Hlmne).
  now rewrite incidents_params_filter.
Qed.

(** C10. In [get_incidents] with an empty status and a [last_modified],
    once [authenticate] has returned success, the [$filter] of the
    incidents request is [" and (properties/lastModifiedTimeUtc ge "],
    the value and ["Z)"]: it starts with [" and "]. *)
Theorem get_incidents_last_modified_only_filter kw st tenant_id client_id
    client_secret auth st1 url last_modified :
  kw_item kw "tenant_id" = Ok tenant_id ->
  kw_item kw "client_id" = Ok client_id ->
  kw_item kw "client_secret" = Ok client_secret ->
  authenticate tenant_id client_id client_secret st = (Ok auth, st1) ->
  success auth = true ->
  incidents_url kw = Ok url ->
  kw_item kw "status" = Ok EmptyString ->
  kw_item kw "last_modified" = Ok last_modified ->
  PyStr.truthy last_modified = true ->
  let filter :=
    " and (properties/lastModifiedTimeUtc ge " ++ last_modified ++ "Z)" in
  (exists h later,
     session st1 = Some h
     /\ sent (snd (get_incidents kw st)) =
        (later
         ++ mkRequest GET url
              [("api-version", "2020-01-01"); ("$filter", filter)]
              [] h NoBody
         :: sent st1)%list)
  /\ String.prefix " and " filter = true.
Proof.
  intros Ht Hc Hs Hauth Hok Hurl Hstatus Hlm Hlmne filter.
  split; [|reflexivity].
  destruct (get_incidents_request _ _ _ _ _ _ _ _ _ _
              Ht Hc Hs Hauth Hok Hurl Hstatus Hlm) as [h [later [Hh E]]].
  exists h, later. split; [exact Hh|].
  rewrite E, (build_query_filter_last_modified _ Hlmne).
  now rewrite incidents_params_filter.
Qed.

(** C4, as amended. With a status and a [last_modified], the filter is
    the one the status branch has built (what is sent when
    [last_modified] is empty) followed by the last-modified condition:
    the filter built earlier is kept, and the result differs from the
    condition alone. *)
Theorem last_modified_branch_keeps_status_filter status last_modified :
  PyStr.truthy status = true ->
  PyStr.truthy last_modified = true ->
  build_query_filter status last_modified =
    build_query_filter status EmptyString
    ++ " and (properties/lastModifiedTimeUtc ge " ++ last_modified ++ "Z)"
  /\ String.prefix (build_query_filter status EmptyString)
       (build_query_filter status last_modified) = true
  /\ build_query_filter status last_modified <>
     build_query_filter EmptyString last_modified.
Proof.
  intros Hs Hl.
  assert (E : build_query_filter status last_modified =
              build_query_filter status EmptyString
              ++ " and (properties/lastModifiedTimeUtc ge "
              ++ last_modified ++ "Z)").
  { now rewrite build_query_filter_both, build_query_filter_status. }
  split; [exact E|split].
  - rewrite E. apply prefix_append.
  - rewrite E, build_query_filter_status, build_query_filter_last_modified
      by assumption.
    discriminate.
Qed.

(** ** [get_incident] *)

Lemma bind_inv {A B : Type} (m : M A) (k : A -> M B) st b st2 :
  bind m k st = (Ok b, st2) ->
  exists a st1, m st = (Ok a, st1) /\ k a st1 = (Ok b, st2).
Proof.
  unfold bind. destruct (m st) as [[a|e] st1]; [|discriminate].
  intros H. now exists a, st1.
Qed.

Lemma kw_get_item kw k x default : kw_item kw k = Ok x -> kw_get kw k default = x.
Proof.
  unfold kw_item, kw_get. destruct (Dict.get k kw); [|discriminate].
  now intros [= ->].
Qed.

(** With an incident ID, [get_incident] is [authenticate] followed by the
    fetch, whatever [authenticate] has returned. *)
Lemma get_incident_run kw st tenant_id client_id client_secret auth st1
    incident_id :
  kw_item kw "incident_id" = Ok incident_id ->
  PyStr.truthy incident_id = true ->
  kw_item kw "tenant_id" = Ok tenant_id ->
  kw_item kw "client_id" = Ok client_id ->
  kw_item kw "client_secret" = Ok client_secret ->
  authenticate tenant_id client_id client_secret st = (Ok auth, st1) ->
  get_incident kw st = fetch_incident kw st1.
Proof.
  intros Hid Hne Ht Hc Hs Hauth. unfold get_incident.
  rewrite (kw_get_item _ _ _ _ Hid), Hne. cbn [negb].
  now rewrite (bind_lift_ok _ _ _ _ Ht), (bind_lift_ok _ _ _ _ Hc),
    (bind_lift_ok _ _ _ _ Hs), (bind_ok _ _ _ _ _ Hauth).
Qed.

(** The incident request of the fetch. *)
Lemma fetch_incident_request kw st base incident_id h :
  incidents_url kw = Ok base ->
  kw_item kw "incident_id" = Ok incident_id ->
  session st = Some h ->
  exists later,
    sent (snd (fetch_incident kw st)) =
    (later
     ++ mkRequest GET (base ++ "/" ++ incident_id)
          [("api-version", "2020-01-01")] [] h NoBody
     :: sent st)%list.
Proof.
  intros Hbase Hid Hh. unfold fetch_incident.
  assert (Hurl : incident_url kw = Ok (base ++ "/" ++ incident_id)).
  { unfold incident_url. now rewrite Hbase, Hid. }
  rewrite (bind_lift_ok _ _ _ _ Hurl).
  destruct (bind_session_request not_put GET (base ++ "/" ++ incident_id)
              [("api-version", "2020-01-01")] [] NoBody
              (read_incident kw) st h Hh (emits_read_incident kw))
    as [later [E _]].
  now exists later.
Qed.

(** When [get_incident] returns for an incident ID, [self.s] is set. *)
Lemma get_incident_returns kw st fetched st1 incident_id :
  kw_item kw "incident_id" = Ok incident_id ->
  PyStr.truthy incident_id = true ->
  get_incident kw st = (Ok fetched, st1) ->
  exists h, session st1 = Some h.
Proof.
  intros Hid Hne. unfold get_incident.
  rewrite (kw_get_item _ _ _ _ Hid), Hne. cbn [negb]. intros H.
  apply bind_inv in H as [tenant_id [s1 [_ H]]].
  apply bind_inv in H as [client_id [s2 [_ H]]].
  apply bind_inv in H as [client_secret [s3 [_ H]]].
  apply bind_inv in H as [auth [s4 [Hauth H]]].
  destruct (authenticate_returns _ _ _ _ _ _ Hauth) as [[h0 Hh0] _].
  destruct (emits_fetch_incident kw s4) as [new [_ [_ Hkeep]]].
  rewrite H in Hkeep. simpl in Hkeep.
  destruct (session st1) as [h|]; [now exists h|].
  exfalso. apply Hkeep; [now rewrite Hh0|reflexivity].
Qed.

(** C5. Without an incident ID, absent or empty, [get_incident] returns
    the string of line 127 and leaves the application object as it was:
    no session is made and no request is sent. *)
Theorem get_incident_without_id kw st :
  Dict.get "incident_id" kw = None
  \/ Dict.get "incident_id" kw = Some EmptyString ->
  get_incident kw st = (Ok no_incident_id, st)
  /\ no_incident_id =
     "{" ++ PyStr.dq ++ "success" ++ PyStr.dq ++ ": false, "
         ++ PyStr.dq ++ "error" ++ PyStr.dq ++ ": "
         ++ PyStr.dq ++ "No incident ID supplied" ++ PyStr.dq ++ "}".
Proof.
  intros H. split; [|reflexivity].
  unfold get_incident, kw_get. now destruct H as [-> | ->].
Qed.

(** C7. When [authenticate] returns a failure, [get_incident] goes on
    with the fetch: its result is the result of the fetch, and the
    incident request goes out, with the headers of the session as they
    are. [get_incidents] and [add_comment] return the dict with the key
    [error] and send nothing more. *)
Theorem get_incident_ignores_failed_authentication kw st tenant_id client_id
    client_secret auth st1 base incident_id :
  kw_item kw "tenant_id" = Ok tenant_id ->
  kw_item kw "client_id" = Ok client_id ->
  kw_item kw "client_secret" = Ok client_secret ->
  authenticate tenant_id client_id client_secret st = (Ok auth, st1) ->
  success auth = false ->
  kw_item kw "incident_id" = Ok incident_id ->
  PyStr.truthy incident_id = true ->
  incidents_url kw = Ok base ->
  get_incident kw st = fetch_incident kw st1
  /\ (exists h later,
        session st1 = Some h
        /\ sent (snd (get_incident kw st)) =
           (later
            ++ mkRequest GET (base ++ "/" ++ incident_id)
                 [("api-version", "2020-01-01")] [] h NoBody
            :: sent st1)%list)
  /\ get_incidents kw st = (Ok (VDict [("error", VStr (message auth))]), st1)
  /\ add_comment kw st = (Ok (VDict [("error", VStr (message auth))]), st1).
Proof.
  intros Ht Hc Hs Hauth Hfail Hid Hne Hbase.
  assert (Hrun := get_incident_run _ _ _ _ _ _ _ _ Hid Hne Ht Hc Hs Hauth).
  split; [exact Hrun|split; [|split]].
  - destruct (authenticate_returns _ _ _ _ _ _ Hauth) as [[h Hh] _].
    destruct (fetch_incident_request _ _ _ _ _ Hbase Hid Hh) as [later E].
    exists h, later. now rewrite Hrun.
  - unfold get_incidents.
    now rewrite (bind_lift_ok _ _ _ _ Ht), (bind_lift_ok _ _ _ _ Hc),
      (bind_lift_ok _ _ _ _ Hs), (bind_ok _ _ _ _ _ Hauth), Hfail.
  - unfold add_comment.
    now rewrite (bind_lift_ok _ _ _ _ Ht), (bind_lift_ok _ _ _ _ Hc),
      (bind_lift_ok _ _ _ _ Hs), (bind_ok _ _ _ _ _ Hauth), Hfail.
Qed.

(** ** [close_incident] *)

Lemma loads_ok fetched incident :
  json_loads fetched = Some incident -> loads fetched = Ok incident.
Proof. unfold loads. now intros ->. Qed.

(** C8. When the object read from the result of [get_incident] has the
    key [error], [close_incident] returns its JSON text and leaves the
    application object as [get_incident] left it; the requests sent
    since the call are those of [get_incident], and none is a [PUT]. *)
Theorem close_incident_error_passthrough kw st fetched st1 d :
  get_incident kw st = (Ok fetched, st1) ->
  json_loads fetched = Some (VDict d) ->
  Dict.mem "error" d = true ->
  close_incident kw st = (Ok (json_dumps (VDict d)), st1)
  /\ exists new,
       sent st1 = (new ++ sent st)%list
       /\ Forall (fun r => req_method r <> PUT) new.
Proof.
  intros Hget Hjson Herr. split.
  - unfold close_incident.
    rewrite (bind_ok _ _ _ _ _ Hget),
      (bind_lift_ok _ _ _ _ (loads_ok _ _ Hjson)).
    cbn [py_in]. rewrite Herr. reflexivity.
  - destruct (emits_get_incident kw st) as [new [E [F _]]].
    rewrite Hget in E. now exists new.
Qed.

Lemma emits_read_closed res : emits (fun _ => False) (read_closed res).
Proof. unfold read_closed. emits_steps. Qed.

(** The update of [close_incident]: once the fetched object has no key
    [error] and the payload is built, one [PUT] goes out, and nothing
    after it. *)
Lemma close_incident_put kw st fetched st1 incident_id base incident data :
  get_incident kw st = (Ok fetched, st1) ->
  kw_item kw "incident_id" = Ok incident_id ->
  PyStr.truthy incident_id = true ->
  incidents_url kw = Ok base ->
  json_loads fetched = Some incident ->
  py_in "error" incident = Ok false ->
  build_close_data kw incident = Ok data ->
  exists h,
    session st1 = Some h
    /\ sent (snd (close_incident kw st)) =
       mkRequest PUT (base ++ "/" ++ incident_id)
         [("api-version", "2020-01-01")] [] h (JsonBody data)
       :: sent st1.
Proof.
  intros Hget Hid Hne Hbase Hjson Herr Hdata.
  destruct (get_incident_returns _ _ _ _ _ Hid Hne Hget) as [h Hh].
  exists h. split; [exact Hh|].
  assert (Hurl : incident_url kw = Ok (base ++ "/" ++ incident_id)).
  { unfold incident_url. now rewrite Hbase, Hid. }
  unfold close_incident.
  rewrite (bind_ok _ _ _ _ _ Hget),
    (bind_lift_ok _ _ _ _ (loads_ok _ _ Hjson)),
    (bind_lift_ok _ _ _ _ Herr),
    (bind_lift_ok _ _ _ _ Hdata), (bind_lift_ok _ _ _ _ Hurl).
  destruct (bind_session_request (fun _ => False) PUT
              (base ++ "/" ++ incident_id) [("api-version", "2020-01-01")]
              [] (JsonBody data) read_closed st1 h Hh emits_read_closed)
    as [later [E F]].
  etransitivity; [exact E|].
  destruct later as [|r later]; [reflexivity|]. now inversion F.
Qed.

(** The payload, from an incident with a string (or no) [etag] and with
    the title and the severity among its properties. *)
Lemma build_close_data_ok kw d etag props title severity reason comment :
  py_get (VDict d) "etag" (VStr EmptyString) = Ok (VStr etag) ->
  Dict.get "properties" d = Some (VDict props) ->
  Dict.get "title" props = Some title ->
  Dict.get "severity" props = Some severity ->
  kw_item kw "close_reason" = Ok reason ->
  kw_item kw "close_comment" = Ok comment ->
  build_close_data kw (VDict d) =
  Ok (close_data (PyStr.strip_chars PyStr.dq etag) title severity
        (split_close_reason reason) comment).
Proof.
  intros Hetag Hprops Htitle Hsev Hreason Hcomment.
  unfold build_close_data. rewrite Hreason, Hetag. cbn [py_strip_chars].
  cbn [py_getitem]. rewrite Hprops. cbn [py_getitem].
  now rewrite Htitle, Hsev, Hcomment.
Qed.

Lemma forallb_pointwise {A : Type} (p q : A -> bool) (l : list A) :
  (forall x, p x = q x) -> forallb p l = forallb q l.
Proof.
  intros H. induction l as [|x l IH]; simpl; [reflexivity|].
  now rewrite H, IH.
Qed.

(** The entries of the payload. *)
Lemma close_data_entries etag title severity close_reason close_comment :
  exists properties,
    close_data etag title severity close_reason close_comment =
    VDict [("etag", VStr etag); ("properties", VDict properties)]
    /\ Dict.get "title" properties = Some title
    /\ Dict.get "status" properties = Some (VStr "Closed")
    /\ Dict.get "severity" properties = Some severity
    /\ Dict.get "classification" properties =
       Some (VStr (nth 0 close_reason EmptyString))
    /\ Dict.get "classificationComment" properties = Some (VStr close_comment)
    /\ Dict.get "classificationReason" properties =
       option_map VStr (nth_error close_reason 1).
Proof.
  unfold close_data.
  destruct close_reason as [|a [|b r]]; eexists; repeat split.
Qed.

(** C6. The update of [close_incident] carries, in the properties of its
    payload, the first hyphen-separated part of [close_reason], stripped,
    as [classification], and the second part, stripped, as
    [classificationReason] when there is one. For
    ["FalsePositive-InaccurateData"] these are ["FalsePositive"] and
    ["InaccurateData"]; for a [close_reason] without a hyphen the key
    [classificationReason] is absent. *)
Theorem close_incident_classification kw st fetched st1 incident_id base d
    etag props title severity reason comment :
  get_incident kw st = (Ok fetched, st1) ->
  kw_item kw "incident_id" = Ok incident_id ->
  PyStr.truthy incident_id = true ->
  incidents_url kw = Ok base ->
  json_loads fetched = Some (VDict d) ->
  Dict.mem "error" d = false ->
  py_get (VDict d) "etag" (VStr EmptyString) = Ok (VStr etag) ->
  Dict.get "properties" d = Some (VDict props) ->
  Dict.get "title" props = Some title ->
  Dict.get "severity" props = Some severity ->
  kw_item kw "close_reason" = Ok reason ->
  kw_item kw "close_comment" = Ok comment ->
  let parts := map PyStr.strip (PyStr.split "-" reason) in
  exists h payload_etag properties,
    session st1 = Some h
    /\ sent (snd (close_incident kw st)) =
       mkRequest PUT (base ++ "/" ++ incident_id)
         [("api-version", "2020-01-01")] [] h
         (JsonBody (VDict [ ("etag", payload_etag);
                            ("properties", VDict properties) ]))
       :: sent st1
    /\ Dict.get "classification" properties =
       Some (VStr (nth 0 parts EmptyString))
    /\ Dict.get "classificationReason" properties =
       option_map VStr (nth_error parts 1)
    /\ (reason = "FalsePositive-InaccurateData" ->
        Dict.get "classification" properties = Some (VStr "FalsePositive")
        /\ Dict.get "classificationReason" properties =
           Some (VStr "InaccurateData"))
    /\ (PyStr.contains "-" reason = false ->
        Dict.get "classification" properties = Some (VStr (PyStr.strip reason))
        /\ Dict.mem "classificationReason" properties = false).
Proof.
  intros Hget Hid Hne Hbase Hjson Herr Hetag Hprops Htitle Hsev Hreason
    Hcomment parts.
  assert (Hdata := build_close_data_ok _ _ _ _ _ _ _ _
                     Hetag Hprops Htitle Hsev Hreason Hcomment).
  assert (Hin : py_in "error" (VDict d) = Ok false) by (simpl; now rewrite Herr).
  destruct (close_incident_put _ _ _ _ _ _ _ _
              Hget Hid Hne Hbase Hjson Hin Hdata) as [h [Hh Hsent]].
  destruct (close_data_entries (PyStr.strip_chars PyStr.dq etag) title severity
              (split_close_reason reason) comment)
    as [properties [E [_ [_ [_ [Hclass [_ Hwhy]]]]]]].
  unfold split_close_reason in E, Hclass, Hwhy. fold parts in E, Hclass, Hwhy.
  exists h, (VStr (PyStr.strip_chars PyStr.dq etag)), properties.
  split; [exact Hh|]. split; [now rewrite Hsent, <- E|].
  split; [exact Hclass|]. split; [exact Hwhy|]. split.
  - intros ->. now rewrite Hclass, Hwhy.
  - intros Hno. apply contains_char_false in Hno.
    unfold Dict.mem. rewrite Hclass, Hwhy. unfold parts.
    now rewrite (split_absent _ _ Hno).
Qed.

(** C9. The update of [close_incident] carries, in its payload, the
    [etag] of the fetched incident without its leading and trailing
    double quotes and, in the properties, the title and the severity of
    the fetched incident as they are, the status ["Closed"] and the
    [close_comment] as [classificationComment]. *)
Theorem close_incident_payload kw st fetched st1 incident_id base d
    etag props title severity reason comment :
  get_incident kw st = (Ok fetched, st1) ->
  kw_item kw "incident_id" = Ok incident_id ->
  PyStr.truthy incident_id = true ->
  incidents_url kw = Ok base ->
  json_loads fetched = Some (VDict d) ->
  Dict.mem "error" d = false ->
  py_get (VDict d) "etag" (VStr EmptyString) = Ok (VStr etag) ->
  Dict.get "properties" d = Some (VDict props) ->
  Dict.get "title" props = Some title ->
  Dict.get "severity" props = Some severity ->
  kw_item kw "close_reason" = Ok reason ->
  kw_item kw "close_comment" = Ok comment ->
  let is_quote c := Ascii.eqb c (ascii_of_nat 34) in
  let payload_etag := PyStr.strip_chars PyStr.dq etag in
  exists h properties,
    session st1 = Some h
    /\ sent (snd (close_incident kw st)) =
       mkRequest PUT (base ++ "/" ++ incident_id)
         [("api-version", "2020-01-01")] [] h
         (JsonBody (VDict [ ("etag", VStr payload_etag);
                            ("properties", VDict properties) ]))
       :: sent st1
    /\ Dict.get "title" properties = Some title
    /\ Dict.get "severity" properties = Some severity
    /\ Dict.get "status" properties = Some (VStr "Closed")
    /\ Dict.get "classificationComment" properties = Some (VStr comment)
    /\ (exists pre post,
          etag = pre ++ payload_etag ++ post
          /\ forallb is_quote (list_ascii_of_string pre) = true
          /\ forallb is_quote (list_ascii_of_string post) = true)
    /\ (forall c r, payload_etag = String c r -> is_quote c = false)
    /\ (forall c r, payload_etag = r ++ String c EmptyString ->
                    is_quote c = false).
Proof.
  intros Hget Hid Hne Hbase Hjson Herr Hetag Hprops Htitle Hsev Hreason
    Hcomment is_quote payload_etag. subst payload_etag.
  assert (Hdata := build_close_data_ok _ _ _ _ _ _ _ _
                     Hetag Hprops Htitle Hsev Hreason Hcomment).
  assert (Hin : py_in "error" (VDict d) = Ok false) by (simpl; now rewrite Herr).
  destruct (close_incident_put _ _ _ _ _ _ _ _
              Hget Hid Hne Hbase Hjson Hin Hdata) as [h [Hh Hsent]].
  destruct (close_data_entries (PyStr.strip_chars PyStr.dq etag) title severity
              (split_close_reason reason) comment)
    as [properties [E [Ht [Hst [Hsv [_ [Hcc _]]]]]]].
  assert (Hq : forall c,
             existsb (Ascii.eqb c) (list_ascii_of_string PyStr.dq) = is_quote c).
  { intros c. unfold is_quote. simpl. apply orb_false_r. }
  exists h, properties.
  split; [exact Hh|]. split; [now rewrite Hsent, <- E|].
  repeat (split; [assumption|]).
  unfold PyStr.strip_chars. split; [|split].
  - destruct (strip_with_decompose
                (fun c => existsb (Ascii.eqb c) (list_ascii_of_string PyStr.dq))
                etag) as [pre [post [E1 [E2 E3]]]].
    exists pre, post. split; [exact E1|].
    split; [rewrite <- E2|rewrite <- E3]; apply forallb_pointwise;
      intros c; now rewrite Hq.
  - intros c r H. rewrite <- Hq. exact (strip_with_head _ _ _ _ H).
  - intros c r H. rewrite <- Hq. exact (strip_with_last _ _ _ _ H).
Qed.

(** ** One request at a time *)

Lemma session_request_ok m url params headers body st h res :
  session st = Some h ->
  net (sent st) (mkRequest m url params headers h body) = Some res ->
  session_request m url params headers body st =
  (Ok res, record (mkRequest m url params headers h body) st).
Proof. intros Hh Hnet. unfold session_request, record. now rewrite Hh, Hnet. Qed.

Lemma session_request_no_answer m url params headers body st h :
  session st = Some h ->
  net (sent st) (mkRequest m url params headers h body) = None ->
  session_request m url params headers body st =
  (Raise RequestException, record (mkRequest m url params headers h body) st).
Proof. intros Hh Hnet. unfold session_request, record. now rewrite Hh, Hnet. Qed.

Lemma res_json_ok res v : json_loads (text res) = Some v -> res_json res = Ok v.
Proof. unfold res_json. now intros ->. Qed.

Lemma res_json_raise res :
  json_loads (text res) = None -> res_json res = Raise JSONDecodeError.
Proof. unfold res_json. now intros ->. Qed.

Lemma bind_raise {A B : Type} (m : M A) (k : A -> M B) (st st1 : app) (e : exn) :
  m st = (Raise e, st1) -> bind m k st = (Raise e, st1).
Proof. unfold bind. now intros ->. Qed.

Lemma bind_lift_raise {A B : Type} (r : result A) (k : A -> M B) (st : app)
    (e : exn) :
  r = Raise e -> bind (lift r) k st = (Raise e, st).
Proof. now intros ->. Qed.

(** A computation that starts with the same step from the same object
    goes on the same way. *)
Lemma bind_from {A B : Type} (m m' : M A) (k : A -> M B) st st' :
  m st = m' st' -> bind m k st = bind m' k st'.
Proof. unfold bind. now intros ->. Qed.

(** ** Dict assignment *)

Lemma dict_get_set_same {A : Type} k (v : A) d :
  Dict.get k (Dict.set k v d) = Some v.
Proof.
  induction d as [|[k' v'] d IH]; simpl.
  - now rewrite String.eqb_refl.
  - destruct (String.eqb k k') eqn:E; simpl; rewrite ?String.eqb_refl, ?E; auto.
Qed.

Lemma dict_get_set_other {A : Type} k k' (v : A) d :
  k' <> k -> Dict.get k' (Dict.set k v d) = Dict.get k' d.
Proof.
  intros Hne. induction d as [|[k0 v0] d IH]; simpl.
  - apply String.eqb_neq in Hne. now rewrite Hne.
  - destruct (String.eqb_spec k k0) as [->|Hk]; simpl.
    + apply String.eqb_neq in Hne. now rewrite Hne.
    + now rewrite IH.
Qed.

(** An existing key keeps its place, a new key goes last: the other
    entries stay where they are. *)
Lemma dict_set_keys {A : Type} k (v : A) d :
  map fst (Dict.set k v d) =
  if Dict.mem k d then map fst d else (map fst d ++ [k])%list.
Proof.
  unfold Dict.mem. induction d as [|[k' v'] d IH]; simpl; [reflexivity|].
  destruct (String.eqb_spec k k') as [->|Hk]; simpl; [reflexivity|].
  rewrite IH. now destruct (Dict.get k d).
Qed.

(** ** Requests under one session *)

Lemma carries_ret {A : Type} h (a : A) : carries h (ret a).
Proof. intros st Hh. split; [exact Hh|now exists []]. Qed.

Lemma carries_raise {A : Type} h (e : exn) : carries h (@raise A e).
Proof. intros st Hh. split; [exact Hh|now exists []]. Qed.

Lemma carries_lift {A : Type} h (r : result A) : carries h (lift r).
Proof. intros st Hh. split; [exact Hh|now exists []]. Qed.

Lemma carries_bind {A B : Type} h (m : M A) (k : A -> M B) :
  carries h m -> (forall a, carries h (k a)) -> carries h (bind m k).
Proof.
  intros Hm Hk st Hh. unfold bind.
  destruct (Hm st Hh) as [S1 [new1 [E1 F1]]].
  destruct (m st) as [[a|e] st1]; simpl in *.
  - destruct (Hk a st1 S1) as [S2 [new2 [E2 F2]]].
    split; [exact S2|]. exists (new2 ++ new1)%list. split.
    + now rewrite E2, E1, app_assoc.
    + apply Forall_app. now split.
  - split; [exact S1|]. now exists new1.
Qed.

Lemma carries_if {A : Type} h (b : bool) (m1 m2 : M A) :
  carries h m1 -> carries h m2 -> carries h (if b then m1 else m2).
Proof. now destruct b. Qed.

Lemma carries_fresh_uuid h : carries h fresh_uuid.
Proof. intros st Hh. split; [exact Hh|now exists []]. Qed.

Lemma carries_session_request h m url params headers body :
  carries h (session_request m url params headers body).
Proof.
  intros st Hh. unfold session_request. rewrite Hh.
  destruct (net _ _); simpl; (split; [reflexivity|]);
    exists [mkRequest m url params headers h body]; now repeat constructor.
Qed.

Lemma carries_for_each {A B : Type} h (body : A -> M B) (l : list A) :
  (forall x, carries h (body x)) -> carries h (for_each body l).
Proof.
  intros Hb. induction l as [|x l IH]; simpl.
  - apply carries_ret.
  - apply carries_bind; [apply Hb|]. intros y.
    apply carries_bind; [exact IH|]. intros l'. apply carries_ret.
Qed.

Create HintDb carries discriminated.
#[local] Hint Resolve carries_ret carries_raise carries_lift carries_if
  carries_fresh_uuid carries_session_request carries_for_each : carries.

Ltac carries_steps :=
  repeat first
    [ solve [auto with carries]
    | apply carries_bind; [|intros ?]
    | apply carries_if
    | apply carries_for_each; intros ? ].

Lemma carries_extract_entities h uri : carries h (extract_entities uri).
Proof. unfold extract_entities. carries_steps. Qed.

Lemma carries_extract_comments h uri : carries h (extract_comments uri).
Proof. unfold extract_comments. carries_steps. Qed.

Lemma carries_enrich_incident h key extract incident :
  (forall uri, carries h (extract uri)) ->
  carries h (enrich_incident key extract incident).
Proof. intros H. unfold enrich_incident. carries_steps. Qed.

#[local] Hint Resolve carries_extract_entities carries_extract_comments
  carries_enrich_incident : carries.

Lemma carries_enrich_incidents h key extract incidents :
  (forall uri, carries h (extract uri)) ->
  carries h (enrich_incidents key extract incidents).
Proof.
  intros H. unfold enrich_incidents.
  destruct incidents; carries_steps.
Qed.

#[local] Hint Resolve carries_enrich_incidents : carries.

Lemma carries_read_incidents h kw res : carries h (read_incidents kw res).
Proof. unfold read_incidents. carries_steps. Qed.

#[local] Hint Resolve carries_read_incidents : carries.

Lemma carries_list_incidents h kw : carries h (list_incidents kw).
Proof. unfold list_incidents. carries_steps. Qed.

Lemma carries_read_incident h kw res : carries h (read_incident kw res).
Proof. unfold read_incident. carries_steps. Qed.

#[local] Hint Resolve carries_read_incident : carries.

Lemma carries_fetch_incident h kw : carries h (fetch_incident kw).
Proof. unfold fetch_incident. carries_steps. Qed.

Lemma carries_read_closed h res : carries h (read_closed res).
Proof. unfold read_closed. carries_steps. Qed.

#[local] Hint Resolve carries_list_incidents carries_fetch_incident
  carries_read_closed : carries.

(** ** More on [authenticate] *)

Lemma authenticate_sent tenant_id client_id client_secret st :
  sent (snd (authenticate tenant_id client_id client_secret st)) =
    token_request tenant_id client_id client_secret :: sent st
  /\ drawn (snd (authenticate tenant_id client_id client_secret st)) = drawn st
  /\ session (snd (authenticate tenant_id client_id client_secret st)) <> None.
Proof.
  rewrite authenticate_run. simpl.
  destruct (net _ _) as [res|]; [|now simpl].
  destruct (negb (status_code res =? 200)).
  - now destruct (json_loads (text res)).
  - now destruct (json_loads (text res)) as [[| | | | | |d]|].
Qed.

(** X1. Whatever the outcome and whatever session there was before,
    [authenticate] makes a new session and sends one request, the [POST]
    of the client-credentials form to the token URL of the tenant, which
    goes out with the default headers of the new session; it draws no
    identifier. *)
Theorem authenticate_sends_one_request tenant_id client_id client_secret st :
  let st1 := snd (authenticate tenant_id client_id client_secret st) in
  sent st1 =
    mkRequest POST
      ("https://login.microsoftonline.com/" ++ tenant_id ++ "/oauth2/v2.0/token")
      []
      [ ("Content-Type", "application/x-www-form-urlencoded");
        ("cache-control", "no-cache") ]
      default_headers
      (FormData [ ("grant_type", "client_credentials");
                  ("client_id", client_id);
                  ("client_secret", client_secret);
                  ("scope", "https://management.azure.com/.default") ])
    :: sent st
  /\ drawn st1 = drawn st
  /\ session st1 <> None.
Proof. exact (authenticate_sent tenant_id client_id client_secret st). Qed.

(** X2. When [authenticate] returns, the message is the raw body of the
    answer. It returns success only for a 200 whose body is a JSON
    object, and the session then carries [Authorization: Bearer] with
    the [access_token] of the object, and [cache-control: no-cache]; it
    returns a failure only for another status whose body is JSON, and
    the session then keeps its default headers. *)
Theorem authenticate_result tenant_id client_id client_secret st auth st1 :
  authenticate tenant_id client_id client_secret st = (Ok auth, st1) ->
  exists res,
    net (sent st) (token_request tenant_id client_id client_secret) = Some res
    /\ message auth = text res
    /\ (if success auth
        then status_code res = 200
             /\ exists d,
                  json_loads (text res) = Some (VDict d)
                  /\ session st1 =
                     Some [ ("Authorization",
                             "Bearer "
                             ++ py_format (get_default "access_token" VNone d));
                            ("cache-control", "no-cache") ]
        else status_code res <> 200
             /\ json_loads (text res) <> None
             /\ session st1 = Some default_headers).
Proof.
  rewrite authenticate_run. simpl.
  destruct (net _ _) as [res|]; [|discriminate].
  destruct (Z.eqb_spec (status_code res) 200) as [Hc|Hc]; simpl.
  - destruct (json_loads (text res)) as [[| | | | | |d]|] eqn:Hj;
      try discriminate.
    cbv zeta. intros H. injection H as <- <-. exists res. simpl.
    repeat split; auto. now exists d.
  - destruct (json_loads (text res)) eqn:Hj; [|discriminate].
    intros H. injection H as <- <-. exists res. simpl.
    repeat split; auto. congruence.
Qed.

(** X3. A 200 whose JSON object has no [access_token] is not told apart
    from a grant: [authenticate] returns success, and the session
    carries [Authorization: Bearer None]. *)
Theorem authenticate_without_access_token tenant_id client_id client_secret
    st res d :
  net (sent st) (token_request tenant_id client_id client_secret) = Some res ->
  status_code res = 200 ->
  json_loads (text res) = Some (VDict d) ->
  Dict.get "access_token" d = None ->
  authenticate tenant_id client_id client_secret st =
  (Ok (mkAuth true (text res)),
   mkApp (Some [("Authorization", "Bearer None"); ("cache-control", "no-cache")])
     (token_request tenant_id client_id client_secret :: sent st) (drawn st)).
Proof.
  intros Hnet Hcode Hjson Hnone.
  rewrite (authenticate_granted _ _ _ _ _ _ Hnet Hcode Hjson), Hnone.
  reflexivity.
Qed.

(** X4. [authenticate] ends with an exception, the token request being
    out and the session new, in three cases: no answer from the
    transport ([RequestException]); a body that is not JSON, whatever
    the status ([JSONDecodeError]); a 200 whose JSON body is not an
    object ([AttributeError]). *)
Theorem authenticate_raises tenant_id client_id client_secret st e :
  (net (sent st) (token_request tenant_id client_id client_secret) = None
   /\ e = RequestException)
  \/ (exists res,
        net (sent st) (token_request tenant_id client_id client_secret)
        = Some res
        /\ json_loads (text res) = None
        /\ e = JSONDecodeError)
  \/ (exists res v,
        net (sent st) (token_request tenant_id client_id client_secret)
        = Some res
        /\ status_code res = 200
        /\ json_loads (text res) = Some v
        /\ (forall d, v <> VDict d)
        /\ e = AttributeError) ->
  authenticate tenant_id client_id client_secret st =
  (Raise e, token_requested tenant_id client_id client_secret st).
Proof.
  rewrite authenticate_run. simpl.
  intros [[-> ->]|[[res [-> [Hj ->]]]|[res [v [-> [Hc [Hj [Hv ->]]]]]]]].
  - reflexivity.
  - rewrite Hj. now destruct (negb (status_code res =? 200)).
  - rewrite Hc, Hj. simpl.
    destruct v as [| | | | | |d]; try reflexivity. now elim (Hv d).
Qed.

(** ** The extractors *)

Lemma extract_entities_run uri st h res :
  session st = Some h ->
  net (sent st) (entities_request h uri) = Some res ->
  extract_entities uri st =
  (match res_json res with
   | Ok body => py_get body "entities" (VList [])
   | Raise e => Raise e
   end,
   record (entities_request h uri) st).
Proof.
  intros Hh Hnet. unfold extract_entities.
  rewrite (bind_ok _ _ _ _ _ (session_request_ok _ _ _ _ _ _ _ _ Hh Hnet)).
  unfold bind, lift. now destruct (res_json res).
Qed.

Lemma extract_comments_run uri st h res :
  session st = Some h ->
  net (sent st) (comments_request h uri) = Some res ->
  extract_comments uri st =
  (match res_json res with
   | Ok body => py_get body "value" (VList [])
   | Raise e => Raise e
   end,
   record (comments_request h uri) st).
Proof.
  intros Hh Hnet. unfold extract_comments.
  rewrite (bind_ok _ _ _ _ _ (session_request_ok _ _ _ _ _ _ _ _ Hh Hnet)).
  unfold bind, lift. now destruct (res_json res).
Qed.

(** X5. [extract_entities] sends one [POST] to the [entities] of the
    incident, with the API version 2019-01-01-preview, and does not look
    at the status of the answer to decide what to return: for any status
    with a JSON object as body it returns the [entities] of the object,
    and the empty list when the object has none. *)
Theorem extract_entities_ignores_status uri st h res d :
  session st = Some h ->
  net (sent st)
    (mkRequest POST (azure_url ++ py_format uri ++ "/entities")
       [("api-version", "2019-01-01-preview")] [] h NoBody) = Some res ->
  json_loads (text res) = Some (VDict d) ->
  extract_entities uri st =
  (Ok (get_default "entities" (VList []) d),
   record (mkRequest POST (azure_url ++ py_format uri ++ "/entities")
             [("api-version", "2019-01-01-preview")] [] h NoBody) st).
Proof.
  intros Hh Hnet Hjson.
  rewrite (extract_entities_run _ _ _ _ Hh Hnet), (res_json_ok _ _ Hjson).
  unfold py_get, get_default. now destruct (Dict.get "entities" d).
Qed.

(** X6. [extract_comments] sends one [GET] to the [comments] of the
    incident, with the API version 2020-01-01, and for any status with a
    JSON object as body returns the [value] of the object, and the empty
    list when the object has none. *)
Theorem extract_comments_ignores_status uri st h res d :
  session st = Some h ->
  net (sent st)
    (mkRequest GET (azure_url ++ py_format uri ++ "/comments")
       [("api-version", "2020-01-01")] [] h NoBody) = Some res ->
  json_loads (text res) = Some (VDict d) ->
  extract_comments uri st =
  (Ok (get_default "value" (VList []) d),
   record (mkRequest GET (azure_url ++ py_format uri ++ "/comments")
             [("api-version", "2020-01-01")] [] h NoBody) st).
Proof.
  intros Hh Hnet Hjson.
  rewrite (extract_comments_run _ _ _ _ Hh Hnet), (res_json_ok _ _ Hjson).
  unfold py_get, get_default. now destruct (Dict.get "value" d).
Qed.

(** X7. An answer whose body is not JSON makes both extractors end with
    [JSONDecodeError], and a JSON body that is not an object with
    [AttributeError], whatever the status; the request is out. *)
Theorem extractors_raise_on_unreadable_body uri st h res e :
  session st = Some h ->
  (json_loads (text res) = None /\ e = JSONDecodeError)
  \/ (exists v, json_loads (text res) = Some v
                /\ (forall d, v <> VDict d) /\ e = AttributeError) ->
  (net (sent st) (entities_request h uri) = Some res ->
   extract_entities uri st = (Raise e, record (entities_request h uri) st))
  /\ (net (sent st) (comments_request h uri) = Some res ->
      extract_comments uri st = (Raise e, record (comments_request h uri) st)).
Proof.
  intros Hh Hbody.
  assert (Hjson : forall key,
            match res_json res with
            | Ok body => py_get body key (VList [])
            | Raise e' => Raise e'
            end = Raise e).
  { intros key. destruct Hbody as [[Hj ->]|[v [Hj [Hv ->]]]].
    - now rewrite (res_json_raise _ Hj).
    - rewrite (res_json_ok _ _ Hj).
      destruct v as [| | | | | |d]; try reflexivity. now elim (Hv d). }
  split; intros Hnet.
  - now rewrite (extract_entities_run _ _ _ _ Hh Hnet), Hjson.
  - now rewrite (extract_comments_run _ _ _ _ Hh Hnet), Hjson.
Qed.

(** ** Arguments that are missing *)

Lemma kw_item_missing kw k :
  Dict.mem k kw = false -> kw_item kw k = Raise (KeyError k).
Proof. unfold Dict.mem, kw_item. now destruct (Dict.get k kw). Qed.

Lemma kw_item_present kw k :
  Dict.mem k kw = true -> exists x, kw_item kw k = Ok x.
Proof.
  unfold Dict.mem, kw_item. destruct (Dict.get k kw) as [x|]; [|discriminate].
  now exists x.
Qed.

(** The three reads before [authenticate], in their order. *)
Lemma credentials_missing {A : Type} kw k (rest : string -> string -> string -> M A) st :
  find (fun k => negb (Dict.mem k kw)) ["tenant_id"; "client_id"; "client_secret"]
  = Some k ->
  (tenant_id <- lift (kw_item kw "tenant_id") ;;
   client_id <- lift (kw_item kw "client_id") ;;
   client_secret <- lift (kw_item kw "client_secret") ;;
   rest tenant_id client_id client_secret) st
  = (Raise (KeyError k), st).
Proof.
  simpl.
  destruct (Dict.mem "tenant_id" kw) eqn:Ht; simpl.
  2:{ intros [= <-]. now rewrite (bind_lift_raise _ _ _ _ (kw_item_missing _ _ Ht)). }
  destruct (kw_item_present _ _ Ht) as [t Ht'].
  rewrite (bind_lift_ok _ _ _ _ Ht').
  destruct (Dict.mem "client_id" kw) eqn:Hc; simpl.
  2:{ intros [= <-]. now rewrite (bind_lift_raise _ _ _ _ (kw_item_missing _ _ Hc)). }
  destruct (kw_item_present _ _ Hc) as [c Hc'].
  rewrite (bind_lift_ok _ _ _ _ Hc').
  destruct (Dict.mem "client_secret" kw) eqn:Hs; simpl.
  2:{ intros [= <-]. now rewrite (bind_lift_raise _ _ _ _ (kw_item_missing _ _ Hs)). }
  discriminate.
Qed.

(** X8. When one of [tenant_id], [client_id], [client_secret] is not
    among the arguments, every action ends with the [KeyError] of the
    first one missing and leaves the application object as it was: no
    session is made, nothing is sent. ([get_incident] and
    [close_incident] first look at the incident ID.) *)
Theorem missing_credential_sends_nothing kw st k :
  find (fun k => negb (Dict.mem k kw)) ["tenant_id"; "client_id"; "client_secret"]
  = Some k ->
  get_incidents kw st = (Raise (KeyError k), st)
  /\ add_comment kw st = (Raise (KeyError k), st)
  /\ (PyStr.truthy (kw_get kw "incident_id" EmptyString) = true ->
      get_incident kw st = (Raise (KeyError k), st)
      /\ close_incident kw st = (Raise (KeyError k), st)).
Proof.
  intros Hk. split; [|split].
  - unfold get_incidents. now apply credentials_missing.
  - unfold add_comment. now apply credentials_missing.
  - intros Hid.
    assert (Hget : get_incident kw st = (Raise (KeyError k), st)).
    { unfold get_incident. rewrite Hid. cbn [negb].
      now apply credentials_missing. }
    split; [exact Hget|].
    unfold close_incident. now rewrite (bind_raise _ _ _ _ _ Hget).
Qed.

(** The three reads of the URL of the incidents, in their order. *)
Lemma incidents_url_missing kw k :
  find (fun k => negb (Dict.mem k kw))
    ["subscription_id"; "resource_group_name"; "workspace_name"] = Some k ->
  incidents_url kw = Raise (KeyError k).
Proof.
  simpl. unfold incidents_url.
  destruct (Dict.mem "subscription_id" kw) eqn:H1; simpl.
  2:{ intros [= <-]. now rewrite (kw_item_missing _ _ H1). }
  destruct (kw_item_present _ _ H1) as [x1 ->].
  destruct (Dict.mem "resource_group_name" kw) eqn:H2; simpl.
  2:{ intros [= <-]. now rewrite (kw_item_missing _ _ H2). }
  destruct (kw_item_present _ _ H2) as [x2 ->].
  destruct (Dict.mem "workspace_name" kw) eqn:H3; simpl.
  2:{ intros [= <-]. now rewrite (kw_item_missing _ _ H3). }
  discriminate.
Qed.

Lemma incidents_url_present kw :
  find (fun k => negb (Dict.mem k kw))
    ["subscription_id"; "resource_group_name"; "workspace_name"] = None ->
  exists url, incidents_url kw = Ok url.
Proof.
  simpl. unfold incidents_url.
  destruct (Dict.mem "subscription_id" kw) eqn:H1; simpl; [|discriminate].
  destruct (kw_item_present _ _ H1) as [x1 ->].
  destruct (Dict.mem "resource_group_name" kw) eqn:H2; simpl; [|discriminate].
  destruct (kw_item_present _ _ H2) as [x2 ->].
  destruct (Dict.mem "workspace_name" kw) eqn:H3; simpl; [|discriminate].
  destruct (kw_item_present _ _ H3) as [x3 ->].
  intros _. now eexists.
Qed.

(** X9. [get_incidents] reads [status] and [last_modified] by subscript:
    both must be among the arguments, even empty. Once [authenticate]
    has returned success, the first of [subscription_id],
    [resource_group_name], [workspace_name], [status], [last_modified]
    that is missing ends the action with its [KeyError]; only the token
    request has gone out. *)
Theorem get_incidents_requires_its_arguments kw st tenant_id client_id
    client_secret auth st1 k :
  kw_item kw "tenant_id" = Ok tenant_id ->
  kw_item kw "client_id" = Ok client_id ->
  kw_item kw "client_secret" = Ok client_secret ->
  authenticate tenant_id client_id client_secret st = (Ok auth, st1) ->
  success auth = true ->
  find (fun k => negb (Dict.mem k kw))
    [ "subscription_id"; "resource_group_name"; "workspace_name";
      "status"; "last_modified" ] = Some k ->
  get_incidents kw st = (Raise (KeyError k), st1).
Proof.
  intros Ht Hc Hs Hauth Hok Hk. unfold get_incidents.
  rewrite (bind_lift_ok _ _ _ _ Ht), (bind_lift_ok _ _ _ _ Hc),
    (bind_lift_ok _ _ _ _ Hs), (bind_ok _ _ _ _ _ Hauth), Hok.
  cbn [negb]. unfold list_incidents.
  destruct (find (fun k => negb (Dict.mem k kw))
              ["subscription_id"; "resource_group_name"; "workspace_name"])
    as [k'|] eqn:Hurl.
  - assert (k' = k) as ->.
    { simpl in Hurl, Hk.
      destruct (Dict.mem "subscription_id" kw); simpl in *; [|congruence].
      destruct (Dict.mem "resource_group_name" kw); simpl in *; [|congruence].
      destruct (Dict.mem "workspace_name" kw); simpl in *; [|congruence].
      discriminate. }
    now rewrite (bind_lift_raise _ _ _ _ (incidents_url_missing _ _ Hurl)).
  - destruct (incidents_url_present _ Hurl) as [url Hu].
    rewrite (bind_lift_ok _ _ _ _ Hu).
    simpl in Hurl, Hk.
    destruct (Dict.mem "subscription_id" kw); simpl in *; [|discriminate].
    destruct (Dict.mem "resource_group_name" kw); simpl in *; [|discriminate].
    destruct (Dict.mem "workspace_name" kw); simpl in *; [|discriminate].
    destruct (Dict.mem "status" kw) eqn:H4; simpl in Hk.
    2:{ injection Hk as <-.
        now rewrite (bind_lift_raise _ _ _ _ (kw_item_missing _ _ H4)). }
    destruct (kw_item_present _ _ H4) as [status Hst].
    rewrite (bind_lift_ok _ _ _ _ Hst).
    destruct (Dict.mem "last_modified" kw) eqn:H5; simpl in Hk; [discriminate|].
    injection Hk as <-.
    now rewrite (bind_lift_raise _ _ _ _ (kw_item_missing _ _ H5)).
Qed.

(** ** The answers to [get_incidents] *)

Lemma get_incidents_run kw st tenant_id client_id client_secret auth st1
    url status last_modified h res :
  kw_item kw "tenant_id" = Ok tenant_id ->
  kw_item kw "client_id" = Ok client_id ->
  kw_item kw "client_secret" = Ok client_secret ->
  authenticate tenant_id client_id client_secret st = (Ok auth, st1) ->
  success auth = true ->
  incidents_url kw = Ok url ->
  kw_item kw "status" = Ok status ->
  kw_item kw "last_modified" = Ok last_modified ->
  session st1 = Some h ->
  net (sent st1)
    (mkRequest GET url
       (incidents_params (build_query_filter status last_modified))
       [] h NoBody) = Some res ->
  get_incidents kw st =
  read_incidents kw res
    (record (mkRequest GET url
               (incidents_params (build_query_filter status last_modified))
               [] h NoBody) st1).
Proof.
  intros Ht Hc Hs Hauth Hok Hurl Hstatus Hlm Hh Hnet. unfold get_incidents.
  rewrite (bind_lift_ok _ _ _ _ Ht), (bind_lift_ok _ _ _ _ Hc),
    (bind_lift_ok _ _ _ _ Hs), (bind_ok _ _ _ _ _ Hauth), Hok.
  cbn [negb]. unfold list_incidents.
  rewrite (bind_lift_ok _ _ _ _ Hurl), (bind_lift_ok _ _ _ _ Hstatus),
    (bind_lift_ok _ _ _ _ Hlm).
  now rewrite (bind_ok _ _ _ _ _ (session_request_ok _ _ _ _ _ _ _ _ Hh Hnet)).
Qed.

(** X10. With [status] and [last_modified] both empty, the incidents
    request of [get_incidents] has the API version as its only query
    parameter: no [$filter] is sent. *)
Theorem get_incidents_without_filter kw st tenant_id client_id client_secret
    auth st1 url :
  kw_item kw "tenant_id" = Ok tenant_id ->
  kw_item kw "client_id" = Ok client_id ->
  kw_item kw "client_secret" = Ok client_secret ->
  authenticate tenant_id client_id client_secret st = (Ok auth, st1) ->
  success auth = true ->
  incidents_url kw = Ok url ->
  kw_item kw "status" = Ok EmptyString ->
  kw_item kw "last_modified" = Ok EmptyString ->
  exists h later,
    session st1 = Some h
    /\ sent (snd (get_incidents kw st)) =
       (later
        ++ mkRequest GET url [("api-version", "2020-01-01")] [] h NoBody
        :: sent st1)%list.
Proof.
  intros Ht Hc Hs Hauth Hok Hurl Hstatus Hlm.
  exact (get_incidents_request _ _ _ _ _ _ _ _ _ _
           Ht Hc Hs Hauth Hok Hurl Hstatus Hlm).
Qed.

(** X11. When the incidents request is answered with a status other than
    200, [get_incidents] returns the raw body as a string, whatever the
    flags: the token request and the incidents request are the only
    requests sent. *)
Theorem get_incidents_upstream_error kw st tenant_id client_id client_secret
    auth st1 url status last_modified h res :
  kw_item kw "tenant_id" = Ok tenant_id ->
  kw_item kw "client_id" = Ok client_id ->
  kw_item kw "client_secret" = Ok client_secret ->
  authenticate tenant_id client_id client_secret st = (Ok auth, st1) ->
  success auth = true ->
  incidents_url kw = Ok url ->
  kw_item kw "status" = Ok status ->
  kw_item kw "last_modified" = Ok last_modified ->
  session st1 = Some h ->
  net (sent st1)
    (mkRequest GET url
       (incidents_params (build_query_filter status last_modified))
       [] h NoBody) = Some res ->
  status_code res <> 200 ->
  get_incidents kw st =
  (Ok (VStr (text res)),
   record (mkRequest GET url
             (incidents_params (build_query_filter status last_modified))
             [] h NoBody) st1).
Proof.
  intros Ht Hc Hs Hauth Hok Hurl Hstatus Hlm Hh Hnet Hcode.
  rewrite (get_incidents_run _ _ _ _ _ _ _ _ _ _ _ _
             Ht Hc Hs Hauth Hok Hurl Hstatus Hlm Hh Hnet).
  unfold read_incidents. apply Z.eqb_neq in Hcode. now rewrite Hcode.
Qed.

(** X12. When the incidents request is answered with 200 and neither
    flag is ["true"], [get_incidents] returns the JSON text of the
    [value] of the answer, whatever it is, after two requests; an answer
    that is not JSON, not an object, or has no [value] ends the action
    with [JSONDecodeError], [TypeError] or [KeyError]. *)
Theorem get_incidents_plain kw st tenant_id client_id client_secret
    auth st1 url status last_modified h res :
  kw_item kw "tenant_id" = Ok tenant_id ->
  kw_item kw "client_id" = Ok client_id ->
  kw_item kw "client_secret" = Ok client_secret ->
  authenticate tenant_id client_id client_secret st = (Ok auth, st1) ->
  success auth = true ->
  incidents_url kw = Ok url ->
  kw_item kw "status" = Ok status ->
  kw_item kw "last_modified" = Ok last_modified ->
  session st1 = Some h ->
  net (sent st1)
    (mkRequest GET url
       (incidents_params (build_query_filter status last_modified))
       [] h NoBody) = Some res ->
  status_code res = 200 ->
  flag_set kw "get_entities" = false ->
  flag_set kw "get_comments" = false ->
  get_incidents kw st =
  (match json_loads (text res) with
   | None => Raise JSONDecodeError
   | Some (VDict body) =>
       match Dict.get "value" body with
       | Some incidents => Ok (VStr (json_dumps incidents))
       | None => Raise (KeyError "value")
       end
   | Some _ => Raise TypeError
   end,
   record (mkRequest GET url
             (incidents_params (build_query_filter status last_modified))
             [] h NoBody) st1).
Proof.
  intros Ht Hc Hs Hauth Hok Hurl Hstatus Hlm Hh Hnet Hcode He Hcm.
  rewrite (get_incidents_run _ _ _ _ _ _ _ _ _ _ _ _
             Ht Hc Hs Hauth Hok Hurl Hstatus Hlm Hh Hnet).
  unfold read_incidents, res_json. rewrite Hcode, He, Hcm. simpl.
  destruct (json_loads (text res)) as [[| | | | | |body]|]; try reflexivity.
  unfold bind, lift, py_getitem. now destruct (Dict.get "value" body).
Qed.

(** ** The enrichment loops *)

(** The body of the loops of lines 112-120. *)
Lemma enrich_body_inv key extract incident st incident' st' :
  (lift (py_getitem incident "id") ;;;
   enrich_incident key extract incident) st = (Ok incident', st') ->
  exists d id x,
    incident = VDict d
    /\ Dict.get "id" d = Some id
    /\ extract id st = (Ok x, st')
    /\ incident' = VDict (Dict.set key x d).
Proof.
  intros H. apply bind_inv in H as [id0 [s0 [H0 H]]].
  unfold enrich_incident in H.
  apply bind_inv in H as [id [s1 [H1 H]]].
  apply bind_inv in H as [x [s2 [H2 H]]].
  unfold lift in *.
  destruct incident as [| | | | | |d]; try discriminate.
  simpl in H0, H1, H.
  destruct (Dict.get "id" d) as [i|] eqn:Hid; [|discriminate].
  injection H0 as _ <-. injection H1 as <- <-. injection H as <- <-.
  now exists d, i, x.
Qed.

Lemma for_each_inv {A B : Type} (body : A -> M B) x l st ys st' :
  for_each body (x :: l) st = (Ok ys, st') ->
  exists y ys' st1,
    body x st = (Ok y, st1)
    /\ for_each body l st1 = (Ok ys', st')
    /\ ys = y :: ys'.
Proof.
  simpl. intros H.
  apply bind_inv in H as [y [st1 [Hy H]]].
  apply bind_inv in H as [ys' [st2 [Hys H]]].
  injection H as <- <-. now exists y, ys', st1.
Qed.

Lemma enrich_incidents_list_inv key extract l st v st' :
  enrich_incidents key extract (VList l) st = (Ok v, st') ->
  exists l',
    v = VList l'
    /\ for_each (fun incident =>
                   lift (py_getitem incident "id") ;;;
                   enrich_incident key extract incident) l st
       = (Ok l', st').
Proof.
  unfold enrich_incidents. intros H.
  apply bind_inv in H as [l' [s1 [Hl H]]].
  injection H as <- <-. now exists l'.
Qed.

(** X13. When the enrichment loop of [get_incidents] returns for a list
    of incidents, it returns as many incidents, in the same order; each
    was an object with an [id] and has become the same object with the
    key ([entities] or [comments]) set: the other keys keep their values
    and their places, and the key is added last when it was not there. *)
Theorem enrich_incidents_keeps_incidents key extract l st v st' :
  enrich_incidents key extract (VList l) st = (Ok v, st') ->
  exists l',
    v = VList l'
    /\ Forall2
         (fun incident incident' =>
            exists d d',
              incident = VDict d
              /\ incident' = VDict d'
              /\ Dict.mem "id" d = true
              /\ Dict.mem key d' = true
              /\ (forall k, k <> key -> Dict.get k d' = Dict.get k d)
              /\ map fst d' =
                 if Dict.mem key d then map fst d
                 else (map fst d ++ [key])%list)
         l l'.
Proof.
  intros H. apply enrich_incidents_list_inv in H as [l' [-> H]].
  exists l'. split; [reflexivity|].
  revert st l' H. induction l as [|incident l IH]; intros st l' H.
  - simpl in H. injection H as <- _. constructor.
  - apply for_each_inv in H as [y [ys [st1 [Hy [Hys ->]]]]].
    constructor; [|exact (IH _ _ Hys)].
    apply enrich_body_inv in Hy as [d [id [x [-> [Hid [_ ->]]]]]].
    exists d, (Dict.set key x d). repeat split.
    + unfold Dict.mem. now rewrite Hid.
    + unfold Dict.mem. now rewrite dict_get_set_same.
    + intros k Hk. now apply dict_get_set_other.
    + apply dict_set_keys.
Qed.

Lemma extract_entities_ok_state uri st h x st' :
  session st = Some h ->
  extract_entities uri st = (Ok x, st') ->
  st' = record (entities_request h uri) st.
Proof.
  intros Hh H. unfold extract_entities in H.
  apply bind_inv in H as [res [s1 [H1 H]]].
  apply bind_inv in H as [body [s2 [H2 H]]].
  unfold lift in *. injection H2 as _ <-. injection H as _ <-.
  unfold session_request in H1. rewrite Hh in H1.
  destruct (net _ _); [|discriminate].
  injection H1 as _ <-. unfold record. now rewrite Hh.
Qed.

Lemma extract_comments_ok_state uri st h x st' :
  session st = Some h ->
  extract_comments uri st = (Ok x, st') ->
  st' = record (comments_request h uri) st.
Proof.
  intros Hh H. unfold extract_comments in H.
  apply bind_inv in H as [res [s1 [H1 H]]].
  apply bind_inv in H as [body [s2 [H2 H]]].
  unfold lift in *. injection H2 as _ <-. injection H as _ <-.
  unfold session_request in H1. rewrite Hh in H1.
  destruct (net _ _); [|discriminate].
  injection H1 as _ <-. unfold record. now rewrite Hh.
Qed.

(** A loop over a list sends the request of each incident, in order. *)
Lemma enrich_requests key (extract : value -> M value)
    (rq : value -> request) h :
  (forall uri st x st',
      session st = Some h ->
      extract uri st = (Ok x, st') -> st' = record (rq uri) st) ->
  forall l st v st',
    session st = Some h ->
    enrich_incidents key extract (VList l) st = (Ok v, st') ->
    exists ids,
      Forall2 (fun incident id => py_getitem incident "id" = Ok id) l ids
      /\ sent st' = (rev (map rq ids) ++ sent st)%list.
Proof.
  intros Hext l st v st' Hh H.
  apply enrich_incidents_list_inv in H as [l' [_ H]].
  revert st l' Hh H. induction l as [|incident l IH]; intros st l' Hh H.
  - simpl in H. injection H as _ <-. exists []. split; [constructor|reflexivity].
  - apply for_each_inv in H as [y [ys [st1 [Hy [Hys _]]]]].
    apply enrich_body_inv in Hy as [d [id [x [-> [Hid [Hx _]]]]]].
    pose proof (Hext _ _ _ _ Hh Hx) as ->.
    destruct (IH (record (rq id) st) ys Hh Hys) as [ids [F E]].
    exists (id :: ids). split.
    + constructor; [|exact F]. simpl. now rewrite Hid.
    + rewrite E. simpl. now rewrite <- app_assoc.
Qed.

(** X14. Enriching a list of incidents costs one request per incident,
    sent one after the other in the order of the list: a [POST] to the
    [entities] of the [id] of each incident for [get_entities], a [GET]
    of its [comments] for [get_comments]. *)
Theorem enrichment_sends_one_request_per_incident l st h :
  session st = Some h ->
  (forall v st',
      enrich_incidents "entities" extract_entities (VList l) st = (Ok v, st') ->
      exists ids,
        Forall2 (fun incident id => py_getitem incident "id" = Ok id) l ids
        /\ sent st' =
           (rev (map (fun id =>
                        mkRequest POST
                          (azure_url ++ py_format id ++ "/entities")
                          [("api-version", "2019-01-01-preview")] [] h NoBody)
                   ids)
            ++ sent st)%list)
  /\ (forall v st',
        enrich_incidents "comments" extract_comments (VList l) st = (Ok v, st') ->
        exists ids,
          Forall2 (fun incident id => py_getitem incident "id" = Ok id) l ids
          /\ sent st' =
             (rev (map (fun id =>
                          mkRequest GET
                            (azure_url ++ py_format id ++ "/comments")
                            [("api-version", "2020-01-01")] [] h NoBody)
                     ids)
              ++ sent st)%list).
Proof.
  intros Hh. split; intros v st' H.
  - exact (enrich_requests "entities" extract_entities (entities_request h) h
             (fun uri s x s' => extract_entities_ok_state uri s h x s')
             l st v st' Hh H).
  - exact (enrich_requests "comments" extract_comments (comments_request h) h
             (fun uri s x s' => extract_comments_ok_state uri s h x s')
             l st v st' Hh H).
Qed.

(** When the [value] of the answer is not a list, the loop does not
    enrich it: an empty object or an empty string is returned as it is;
    an object with a key or a string with a character ends the action
    with [TypeError], as do [None], a boolean and a number. Nothing is
    sent. *)
Lemma enrich_incidents_not_a_list key extract incidents st :
  (forall l, incidents <> VList l) ->
  enrich_incidents key extract incidents st =
  (match incidents with
   | VDict [] => Ok incidents
   | VStr EmptyString => Ok incidents
   | _ => Raise TypeError
   end, st).
Proof.
  intros Hl.
  destruct incidents as [| | | |s|l|d]; try reflexivity.
  - now destruct s.
  - now elim (Hl l).
  - now destruct d as [|[k x] d].
Qed.

(** ** The answers to [get_incident] *)

Lemma incident_url_ok kw base incident_id :
  incidents_url kw = Ok base ->
  kw_item kw "incident_id" = Ok incident_id ->
  incident_url kw = Ok (base ++ "/" ++ incident_id).
Proof. intros Hb Hi. unfold incident_url. now rewrite Hb, Hi. Qed.

Lemma fetch_incident_run kw st base incident_id h res :
  incidents_url kw = Ok base ->
  kw_item kw "incident_id" = Ok incident_id ->
  session st = Some h ->
  net (sent st) (resource_request GET (base ++ "/" ++ incident_id) h NoBody)
  = Some res ->
  fetch_incident kw st =
  read_incident kw res
    (record (resource_request GET (base ++ "/" ++ incident_id) h NoBody) st).
Proof.
  intros Hb Hi Hh Hnet. unfold fetch_incident.
  rewrite (bind_lift_ok _ _ _ _ (incident_url_ok _ _ _ Hb Hi)).
  now rewrite (bind_ok _ _ _ _ _ (session_request_ok _ _ _ _ _ _ _ _ Hh Hnet)).
Qed.

(** The whole of [get_incident] up to the answer to the incident request. *)
Lemma get_incident_answered kw st tenant_id client_id client_secret auth st1
    base incident_id h res :
  kw_item kw "tenant_id" = Ok tenant_id ->
  kw_item kw "client_id" = Ok client_id ->
  kw_item kw "client_secret" = Ok client_secret ->
  authenticate tenant_id client_id client_secret st = (Ok auth, st1) ->
  kw_item kw "incident_id" = Ok incident_id ->
  PyStr.truthy incident_id = true ->
  incidents_url kw = Ok base ->
  session st1 = Some h ->
  net (sent st1) (resource_request GET (base ++ "/" ++ incident_id) h NoBody)
  = Some res ->
  get_incident kw st =
  read_incident kw res
    (record (resource_request GET (base ++ "/" ++ incident_id) h NoBody) st1).
Proof.
  intros Ht Hc Hs Hauth Hid Hne Hbase Hh Hnet.
  rewrite (get_incident_run _ _ _ _ _ _ _ _ Hid Hne Ht Hc Hs Hauth).
  exact (fetch_incident_run _ _ _ _ _ _ Hbase Hid Hh Hnet).
Qed.

(** X15. When the incident request is answered with a status other than
    200, [get_incident] returns the raw body, whatever the flags and
    whatever [authenticate] has returned: the token request and the
    incident request are the only requests sent. *)
Theorem get_incident_upstream_error kw st tenant_id client_id client_secret
    auth st1 base incident_id h res :
  kw_item kw "tenant_id" = Ok tenant_id ->
  kw_item kw "client_id" = Ok client_id ->
  kw_item kw "client_secret" = Ok client_secret ->
  authenticate tenant_id client_id client_secret st = (Ok auth, st1) ->
  kw_item kw "incident_id" = Ok incident_id ->
  PyStr.truthy incident_id = true ->
  incidents_url kw = Ok base ->
  session st1 = Some h ->
  net (sent st1)
    (mkRequest GET (base ++ "/" ++ incident_id)
       [("api-version", "2020-01-01")] [] h NoBody) = Some res ->
  status_code res <> 200 ->
  get_incident kw st =
  (Ok (text res),
   record (mkRequest GET (base ++ "/" ++ incident_id)
             [("api-version", "2020-01-01")] [] h NoBody) st1).
Proof.
  intros Ht Hc Hs Hauth Hid Hne Hbase Hh Hnet Hcode.
  rewrite (get_incident_answered _ _ _ _ _ _ _ _ _ _ _
             Ht Hc Hs Hauth Hid Hne Hbase Hh Hnet).
  unfold read_incident. apply Z.eqb_neq in Hcode. now rewrite Hcode.
Qed.

(** X16. When the incident request is answered with 200 and neither flag
    is ["true"], [get_incident] returns the JSON text of the decoded
    body, whatever its shape, after two requests; a body that is not
    JSON ends the action with [JSONDecodeError]. *)
Theorem get_incident_plain kw st tenant_id client_id client_secret
    auth st1 base incident_id h res :
  kw_item kw "tenant_id" = Ok tenant_id ->
  kw_item kw "client_id" = Ok client_id ->
  kw_item kw "client_secret" = Ok client_secret ->
  authenticate tenant_id client_id client_secret st = (Ok auth, st1) ->
  kw_item kw "incident_id" = Ok incident_id ->
  PyStr.truthy incident_id = true ->
  incidents_url kw = Ok base ->
  session st1 = Some h ->
  net (sent st1)
    (mkRequest GET (base ++ "/" ++ incident_id)
       [("api-version", "2020-01-01")] [] h NoBody) = Some res ->
  status_code res = 200 ->
  flag_set kw "get_entities" = false ->
  flag_set kw "get_comments" = false ->
  get_incident kw st =
  (match json_loads (text res) with
   | Some incident => Ok (json_dumps incident)
   | None => Raise JSONDecodeError
   end,
   record (mkRequest GET (base ++ "/" ++ incident_id)
             [("api-version", "2020-01-01")] [] h NoBody) st1).
Proof.
  intros Ht Hc Hs Hauth Hid Hne Hbase Hh Hnet Hcode He Hcm.
  rewrite (get_incident_answered _ _ _ _ _ _ _ _ _ _ _
             Ht Hc Hs Hauth Hid Hne Hbase Hh Hnet).
  unfold read_incident, res_json. rewrite Hcode, He, Hcm. simpl.
  now destruct (json_loads (text res)).
Qed.

(** X17. With both flags, [get_incident] asks for the entities of the
    [id] of the fetched incident, then for its comments, and returns the
    JSON text of the fetched object with [entities] set, then [comments]
    set. *)
Theorem get_incident_enriched kw st tenant_id client_id client_secret
    auth st1 base incident_id h res d id entities st3 comments st4 :
  kw_item kw "tenant_id" = Ok tenant_id ->
  kw_item kw "client_id" = Ok client_id ->
  kw_item kw "client_secret" = Ok client_secret ->
  authenticate tenant_id client_id client_secret st = (Ok auth, st1) ->
  kw_item kw "incident_id" = Ok incident_id ->
  PyStr.truthy incident_id = true ->
  incidents_url kw = Ok base ->
  session st1 = Some h ->
  net (sent st1)
    (mkRequest GET (base ++ "/" ++ incident_id)
       [("api-version", "2020-01-01")] [] h NoBody) = Some res ->
  status_code res = 200 ->
  json_loads (text res) = Some (VDict d) ->
  Dict.get "id" d = Some id ->
  flag_set kw "get_entities" = true ->
  flag_set kw "get_comments" = true ->
  extract_entities id
    (record (mkRequest GET (base ++ "/" ++ incident_id)
               [("api-version", "2020-01-01")] [] h NoBody) st1)
  = (Ok entities, st3) ->
  extract_comments id st3 = (Ok comments, st4) ->
  get_incident kw st =
  (Ok (json_dumps
         (VDict (Dict.set "comments" comments
                   (Dict.set "entities" entities d)))),
   st4)
  /\ sent st4 =
     mkRequest GET (azure_url ++ py_format id ++ "/comments")
       [("api-version", "2020-01-01")] [] h NoBody
     :: mkRequest POST (azure_url ++ py_format id ++ "/entities")
          [("api-version", "2019-01-01-preview")] [] h NoBody
     :: mkRequest GET (base ++ "/" ++ incident_id)
          [("api-version", "2020-01-01")] [] h NoBody
     :: sent st1.
Proof.
  intros Ht Hc Hs Hauth Hid Hne Hbase Hh Hnet Hcode Hjson Hd He Hcm Hent Hcom.
  split.
  - rewrite (get_incident_answered _ _ _ _ _ _ _ _ _ _ _
               Ht Hc Hs Hauth Hid Hne Hbase Hh Hnet).
    unfold read_incident. rewrite Hcode, He, Hcm. simpl.
    rewrite (bind_lift_ok _ _ _ _ (res_json_ok _ _ Hjson)).
    assert (H1 : enrich_incident "entities" extract_entities (VDict d)
                   (record (resource_request GET (base ++ "/" ++ incident_id)
                              h NoBody) st1)
                 = (Ok (VDict (Dict.set "entities" entities d)), st3)).
    { unfold enrich_incident. cbn [py_getitem]. rewrite Hd.
      rewrite (bind_lift_ok _ _ _ _ eq_refl), (bind_ok _ _ _ _ _ Hent).
      reflexivity. }
    rewrite (bind_ok _ _ _ _ _ H1).
    assert (Hd' : Dict.get "id" (Dict.set "entities" entities d) = Some id).
    { rewrite dict_get_set_other; [exact Hd|discriminate]. }
    assert (H2 : enrich_incident "comments" extract_comments
                   (VDict (Dict.set "entities" entities d)) st3
                 = (Ok (VDict (Dict.set "comments" comments
                                 (Dict.set "entities" entities d))), st4)).
    { unfold enrich_incident. cbn [py_getitem]. rewrite Hd'.
      rewrite (bind_lift_ok _ _ _ _ eq_refl), (bind_ok _ _ _ _ _ Hcom).
      reflexivity. }
    now rewrite (bind_ok _ _ _ _ _ H2).
  - assert (Hh2 : session (record (resource_request GET
                                     (base ++ "/" ++ incident_id) h NoBody) st1)
                  = Some h) by exact Hh.
    pose proof (extract_entities_ok_state _ _ _ _ _ Hh2 Hent) as E3.
    assert (Hh3 : session st3 = Some h) by (now rewrite E3).
    pose proof (extract_comments_ok_state _ _ _ _ _ Hh3 Hcom) as E4.
    rewrite E4, E3. reflexivity.
Qed.

(** X18. Enrichment reads the [id] of the fetched object: with a flag
    set and a 200 whose JSON body has no [id], or is not an object,
    [get_incident] ends with [KeyError] or [TypeError] after the
    incident request, and asks for no entities and no comments. *)
Theorem get_incident_enrichment_needs_id kw st tenant_id client_id
    client_secret auth st1 base incident_id h res incident e :
  kw_item kw "tenant_id" = Ok tenant_id ->
  kw_item kw "client_id" = Ok client_id ->
  kw_item kw "client_secret" = Ok client_secret ->
  authenticate tenant_id client_id client_secret st = (Ok auth, st1) ->
  kw_item kw "incident_id" = Ok incident_id ->
  PyStr.truthy incident_id = true ->
  incidents_url kw = Ok base ->
  session st1 = Some h ->
  net (sent st1)
    (mkRequest GET (base ++ "/" ++ incident_id)
       [("api-version", "2020-01-01")] [] h NoBody) = Some res ->
  status_code res = 200 ->
  json_loads (text res) = Some incident ->
  flag_set kw "get_entities" = true \/ flag_set kw "get_comments" = true ->
  (exists d, incident = VDict d /\ Dict.get "id" d = None /\ e = KeyError "id")
  \/ ((forall d, incident <> VDict d) /\ e = TypeError) ->
  get_incident kw st =
  (Raise e,
   record (mkRequest GET (base ++ "/" ++ incident_id)
             [("api-version", "2020-01-01")] [] h NoBody) st1).
Proof.
  intros Ht Hc Hs Hauth Hid Hne Hbase Hh Hnet Hcode Hjson Hflag Hshape.
  rewrite (get_incident_answered _ _ _ _ _ _ _ _ _ _ _
             Ht Hc Hs Hauth Hid Hne Hbase Hh Hnet).
  unfold read_incident. rewrite Hcode. simpl.
  rewrite (bind_lift_ok _ _ _ _ (res_json_ok _ _ Hjson)).
  assert (Hget : py_getitem incident "id" = Raise e).
  { destruct Hshape as [[d [-> [Hd ->]]]|[Hnd ->]].
    - simpl. now rewrite Hd.
    - destruct incident as [| | | | | |d]; try reflexivity. now elim (Hnd d). }
  assert (Henrich : forall key extract s,
            enrich_incident key extract incident s = (Raise e, s)).
  { intros key extract s. unfold enrich_incident.
    now rewrite (bind_lift_raise _ _ _ _ Hget). }
  destruct (flag_set kw "get_entities") eqn:He.
  - now rewrite (bind_raise _ _ _ _ _ (Henrich _ _ _)).
  - destruct Hflag as [Hf|Hf]; [discriminate|]. rewrite Hf.
    rewrite (bind_ok (ret incident) _ _ _ incident eq_refl).
    now rewrite (bind_raise _ _ _ _ _ (Henrich _ _ _)).
Qed.

(** [sep in s] is true exactly when a character of [s] is [sep]. *)
Lemma contains_char_true (c : ascii) (s : string) :
  PyStr.contains (String c EmptyString) s = true ->
  In c (list_ascii_of_string s).
Proof.
  induction s as [|d s IH]; simpl; [discriminate|].
  destruct (ascii_dec c d) as [->|Hne]; [now left|].
  simpl. intros H. right. now apply IH.
Qed.

(** ** More on [close_incident] *)

(** X19. Without an incident ID, when [json.loads] reads the string of
    line 127 as an object with the key [error], [close_incident] returns
    the JSON text of that object and leaves the application object as it
    was: it does not authenticate and sends nothing. *)
Theorem close_incident_without_id kw st d :
  Dict.get "incident_id" kw = None
  \/ Dict.get "incident_id" kw = Some EmptyString ->
  json_loads no_incident_id = Some (VDict d) ->
  Dict.mem "error" d = true ->
  close_incident kw st = (Ok (json_dumps (VDict d)), st).
Proof.
  intros Hid Hjson Herr.
  assert (Hget : get_incident kw st = (Ok no_incident_id, st)).
  { unfold get_incident, kw_get. now destruct Hid as [-> | ->]. }
  unfold close_incident.
  rewrite (bind_ok _ _ _ _ _ Hget),
    (bind_lift_ok _ _ _ _ (loads_ok _ _ Hjson)).
  cbn [py_in]. rewrite Herr. reflexivity.
Qed.

(** X20. [close_incident] decodes whatever [get_incident] returns, the
    raw body of a failed fetch included: a result that is not JSON ends
    the action with [JSONDecodeError], and one that decodes to [None],
    a boolean or a number with [TypeError]. The application object is as
    [get_incident] left it: no update is sent. *)
Theorem close_incident_unreadable_fetch kw st fetched st1 e :
  get_incident kw st = (Ok fetched, st1) ->
  (json_loads fetched = None /\ e = JSONDecodeError)
  \/ (exists v,
        json_loads fetched = Some v
        /\ (v = VNone \/ (exists b, v = VBool b) \/ (exists n, v = VInt n)
            \/ (exists f, v = VFloat f))
        /\ e = TypeError) ->
  close_incident kw st = (Raise e, st1).
Proof.
  intros Hget Hbad. unfold close_incident.
  rewrite (bind_ok _ _ _ _ _ Hget).
  destruct Hbad as [[Hj ->]|[v [Hj [Hv ->]]]].
  - unfold loads. now rewrite Hj.
  - rewrite (bind_lift_ok _ _ _ _ (loads_ok _ _ Hj)).
    now destruct Hv as [->|[[b ->]|[[n ->]|[f ->]]]].
Qed.

(** X21. The payload of [close_incident] can be built from a fetched
    object exactly when [close_reason] and [close_comment] are among the
    arguments, the [etag] of the object is a string or is absent, and
    its [properties] are an object with a [title] and a [severity]. *)
Theorem build_close_data_succeeds_iff kw d :
  (exists data, build_close_data kw (VDict d) = Ok data)
  <-> Dict.mem "close_reason" kw = true
      /\ Dict.mem "close_comment" kw = true
      /\ (Dict.get "etag" d = None
          \/ exists s, Dict.get "etag" d = Some (VStr s))
      /\ exists props,
           Dict.get "properties" d = Some (VDict props)
           /\ Dict.mem "title" props = true
           /\ Dict.mem "severity" props = true.
Proof.
  unfold build_close_data, kw_item, Dict.mem. cbn [py_get py_getitem].
  split.
  - intros [data H].
    destruct (Dict.get "close_reason" kw); [|discriminate].
    destruct (Dict.get "etag" d) as [[| | | |tag| |]|] eqn:He;
      cbn [py_strip_chars] in H; try discriminate.
    + destruct (Dict.get "properties" d) as [[| | | | | |props]|];
        cbn [py_getitem] in H; try discriminate.
      destruct (Dict.get "title" props) eqn:Ht; [|discriminate].
      destruct (Dict.get "severity" props) eqn:Hs; [|discriminate].
      destruct (Dict.get "close_comment" kw); [|discriminate].
      repeat split; eauto. exists props. now rewrite Ht, Hs.
    + destruct (Dict.get "properties" d) as [[| | | | | |props]|];
        cbn [py_getitem] in H; try discriminate.
      destruct (Dict.get "title" props) eqn:Ht; [|discriminate].
      destruct (Dict.get "severity" props) eqn:Hs; [|discriminate].
      destruct (Dict.get "close_comment" kw); [|discriminate].
      repeat split; eauto. exists props. now rewrite Ht, Hs.
  - intros [Hr [Hc [He [props [Hp [Ht Hs]]]]]].
    destruct (Dict.get "close_reason" kw); [|discriminate].
    destruct (Dict.get "close_comment" kw); [|discriminate].
    rewrite Hp. cbn [py_getitem].
    destruct (Dict.get "title" props); [|discriminate].
    destruct (Dict.get "severity" props); [|discriminate].
    destruct He as [->|[tag ->]]; cbn [py_strip_chars]; eauto.
Qed.

(** X22. When the payload cannot be built, the exception ends
    [close_incident] after the fetch: the application object is as
    [get_incident] left it, and no update is sent. *)
Theorem close_incident_payload_failure kw st fetched st1 d e :
  get_incident kw st = (Ok fetched, st1) ->
  json_loads fetched = Some (VDict d) ->
  Dict.mem "error" d = false ->
  build_close_data kw (VDict d) = Raise e ->
  close_incident kw st = (Raise e, st1).
Proof.
  intros Hget Hjson Herr Hdata. unfold close_incident.
  rewrite (bind_ok _ _ _ _ _ Hget),
    (bind_lift_ok _ _ _ _ (loads_ok _ _ Hjson)).
  cbn [py_in]. rewrite Herr. rewrite (bind_lift_ok _ _ _ _ eq_refl).
  now rewrite (bind_lift_raise _ _ _ _ Hdata).
Qed.

(** The whole of [close_incident] up to the answer to the update. *)
Lemma close_incident_answered kw st fetched st1 incident_id base incident
    data h res :
  get_incident kw st = (Ok fetched, st1) ->
  kw_item kw "incident_id" = Ok incident_id ->
  incidents_url kw = Ok base ->
  json_loads fetched = Some incident ->
  py_in "error" incident = Ok false ->
  build_close_data kw incident = Ok data ->
  session st1 = Some h ->
  net (sent st1)
    (resource_request PUT (base ++ "/" ++ incident_id) h (JsonBody data))
  = Some res ->
  close_incident kw st =
  read_closed res
    (record (resource_request PUT (base ++ "/" ++ incident_id) h
               (JsonBody data)) st1).
Proof.
  intros Hget Hid Hbase Hjson Herr Hdata Hh Hnet. unfold close_incident.
  rewrite (bind_ok _ _ _ _ _ Hget),
    (bind_lift_ok _ _ _ _ (loads_ok _ _ Hjson)),
    (bind_lift_ok _ _ _ _ Herr),
    (bind_lift_ok _ _ _ _ Hdata),
    (bind_lift_ok _ _ _ _ (incident_url_ok _ _ _ Hbase Hid)).
  now rewrite (bind_ok _ _ _ _ _ (session_request_ok _ _ _ _ _ _ _ _ Hh Hnet)).
Qed.

Lemma with_success_run res :
  with_success res =
  match json_loads (text res) with
  | None => Raise JSONDecodeError
  | Some (VDict body) =>
      Ok (json_dumps (VDict (Dict.set "success" (VBool true) body)))
  | Some _ => Raise TypeError
  end.
Proof.
  unfold with_success, res_json.
  now destruct (json_loads (text res)) as [[| | | | | |body]|].
Qed.

(** X23. Once the update of [close_incident] is answered: a status other
    than 200 makes the action return the raw body; a 200 whose body is a
    JSON object makes it return the JSON text of that object with
    [success] set to [true], in place when the answer had the key and
    last otherwise; a 200 with another body ends it with
    [JSONDecodeError] or [TypeError], the update being out. *)
Theorem close_incident_result kw st fetched st1 incident_id base incident
    data h res :
  get_incident kw st = (Ok fetched, st1) ->
  kw_item kw "incident_id" = Ok incident_id ->
  incidents_url kw = Ok base ->
  json_loads fetched = Some incident ->
  py_in "error" incident = Ok false ->
  build_close_data kw incident = Ok data ->
  session st1 = Some h ->
  net (sent st1)
    (mkRequest PUT (base ++ "/" ++ incident_id)
       [("api-version", "2020-01-01")] [] h (JsonBody data)) = Some res ->
  close_incident kw st =
  (if status_code res =? 200 then
     match json_loads (text res) with
     | None => Raise JSONDecodeError
     | Some (VDict body) =>
         Ok (json_dumps (VDict (Dict.set "success" (VBool true) body)))
     | Some _ => Raise TypeError
     end
   else Ok (text res),
   record (mkRequest PUT (base ++ "/" ++ incident_id)
             [("api-version", "2020-01-01")] [] h (JsonBody data)) st1).
Proof.
  intros Hget Hid Hbase Hjson Herr Hdata Hh Hnet.
  rewrite (close_incident_answered _ _ _ _ _ _ _ _ _ _
             Hget Hid Hbase Hjson Herr Hdata Hh Hnet).
  unfold read_closed.
  destruct (status_code res =? 200); simpl; [|reflexivity].
  unfold lift. now rewrite with_success_run.
Qed.

(** X24. The properties of the payload of [close_incident] are [title],
    [status], [severity], [classification], [classificationComment], in
    this order, followed by [classificationReason] when [close_reason]
    has a hyphen, and nothing else: no other property of the fetched
    incident is sent back with the update. *)
Theorem close_incident_payload_keys kw st fetched st1 incident_id base d
    etag props title severity reason comment :
  get_incident kw st = (Ok fetched, st1) ->
  kw_item kw "incident_id" = Ok incident_id ->
  PyStr.truthy incident_id = true ->
  incidents_url kw = Ok base ->
  json_loads fetched = Some (VDict d) ->
  Dict.mem "error" d = false ->
  py_get (VDict d) "etag" (VStr EmptyString) = Ok (VStr etag) ->
  Dict.get "properties" d = Some (VDict props) ->
  Dict.get "title" props = Some title ->
  Dict.get "severity" props = Some severity ->
  kw_item kw "close_reason" = Ok reason ->
  kw_item kw "close_comment" = Ok comment ->
  exists h payload_etag properties,
    sent (snd (close_incident kw st)) =
      mkRequest PUT (base ++ "/" ++ incident_id)
        [("api-version", "2020-01-01")] [] h
        (JsonBody (VDict [ ("etag", payload_etag);
                           ("properties", VDict properties) ]))
      :: sent st1
    /\ map fst properties =
       ([ "title"; "status"; "severity"; "classification";
          "classificationComment" ]
        ++ (if PyStr.contains "-" reason then ["classificationReason"]
            else []))%list.
Proof.
  intros Hget Hid Hne Hbase Hjson Herr Hetag Hprops Htitle Hsev Hreason
    Hcomment.
  assert (Hdata := build_close_data_ok _ _ _ _ _ _ _ _
                     Hetag Hprops Htitle Hsev Hreason Hcomment).
  assert (Hin : py_in "error" (VDict d) = Ok false) by (simpl; now rewrite Herr).
  destruct (close_incident_put _ _ _ _ _ _ _ _
              Hget Hid Hne Hbase Hjson Hin Hdata) as [h [Hh Hsent]].
  rewrite Hsent. unfold close_data, split_close_reason.
  eexists h, _, _. split; [reflexivity|].
  rewrite length_map.
  destruct (PyStr.contains "-" reason) eqn:Hc.
  - destruct (PyStr.split "-" reason) as [|a [|b r]] eqn:Hsplit;
      [now elim (split_not_nil "-" reason)| |reflexivity].
    exfalso. apply (contains_char_true "-"%char reason) in Hc.
    pose proof (split_pieces "-" reason) as Hp. rewrite Hsplit in Hp.
    pose proof (join_split "-" reason) as Hj. rewrite Hsplit in Hj.
    simpl in Hj. subst a. inversion Hp as [|? ? Ha _]; subst. now apply Ha.
  - apply contains_char_false in Hc.
    now rewrite (split_absent _ _ Hc).
Qed.

(** ** More on [add_comment] *)

Lemma comments_url_ok kw base incident_id :
  incidents_url kw = Ok base ->
  kw_item kw "incident_id" = Ok incident_id ->
  comments_url kw = Ok ((base ++ "/" ++ incident_id) ++ "/comments").
Proof.
  intros Hb Hi. unfold comments_url.
  now rewrite (incident_url_ok _ _ _ Hb Hi).
Qed.

Lemma append_assoc (s t u : string) : (s ++ t) ++ u = s ++ t ++ u.
Proof. induction s as [|c s IH]; simpl; [reflexivity|now rewrite IH]. Qed.

Lemma comment_target base incident_id comment_id :
  ((base ++ "/" ++ incident_id) ++ "/comments") ++ "/" ++ comment_id =
  base ++ "/" ++ incident_id ++ "/comments/" ++ comment_id.
Proof. rewrite !append_assoc. reflexivity. Qed.

(** The application object once an identifier has been drawn. *)
Lemma add_comment_answered kw st tenant_id client_id client_secret auth st1
    base incident_id comment h :
  kw_item kw "tenant_id" = Ok tenant_id ->
  kw_item kw "client_id" = Ok client_id ->
  kw_item kw "client_secret" = Ok client_secret ->
  authenticate tenant_id client_id client_secret st = (Ok auth, st1) ->
  success auth = true ->
  incidents_url kw = Ok base ->
  kw_item kw "incident_id" = Ok incident_id ->
  kw_item kw "comment" = Ok comment ->
  session st1 = Some h ->
  let rq :=
    mkRequest PUT
      (base ++ "/" ++ incident_id ++ "/comments/" ++ uuid4 (drawn st1))
      [("api-version", "2020-01-01")] [] h
      (JsonBody (VDict [("properties", VDict [("message", VStr comment)])])) in
  let st2 := mkApp (Some h) (rq :: sent st1) (S (drawn st1)) in
  add_comment kw st =
  match net (sent st1) rq with
  | None => (Raise RequestException, st2)
  | Some res =>
      (if status_code res =? 200 then
         match json_loads (text res) with
         | None => Raise JSONDecodeError
         | Some (VDict body) =>
             Ok (VStr (json_dumps
                         (VDict (Dict.set "success" (VBool true) body))))
         | Some _ => Raise TypeError
         end
       else Ok (VStr (text res)),
       st2)
  end.
Proof.
  intros Ht Hc Hs Hauth Hok Hbase Hid Hcomment Hh rq st2.
  unfold add_comment.
  rewrite (bind_lift_ok _ _ _ _ Ht), (bind_lift_ok _ _ _ _ Hc),
    (bind_lift_ok _ _ _ _ Hs), (bind_ok _ _ _ _ _ Hauth), Hok.
  cbn [negb].
  rewrite (bind_lift_ok _ _ _ _ (comments_url_ok _ _ _ Hbase Hid)).
  rewrite (bind_ok fresh_uuid _ st1 _ (uuid4 (drawn st1)) eq_refl).
  rewrite (bind_lift_ok _ _ _ _ Hcomment).
  rewrite comment_target. fold rq.
  unfold bind at 1. unfold session_request. cbn [session sent drawn].
  rewrite Hh. fold rq. subst st2.
  destruct (net (sent st1) rq) as [res|]; [|reflexivity].
  destruct (status_code res =? 200); simpl; [|reflexivity].
  unfold bind, lift. rewrite with_success_run.
  now destruct (json_loads (text res)) as [[| | | | | |body]|].
Qed.

(** X25. Once [authenticate] has returned success, [add_comment] draws
    one identifier and sends one request, whatever the incident ID, even
    empty: the [PUT] of the object with the comment as the [message] of
    its [properties] to [comments/<identifier>] under the incident, with
    the headers of the session. Nothing else is sent after it. *)
Theorem add_comment_request kw st tenant_id client_id client_secret auth st1
    base incident_id comment h :
  kw_item kw "tenant_id" = Ok tenant_id ->
  kw_item kw "client_id" = Ok client_id ->
  kw_item kw "client_secret" = Ok client_secret ->
  authenticate tenant_id client_id client_secret st = (Ok auth, st1) ->
  success auth = true ->
  incidents_url kw = Ok base ->
  kw_item kw "incident_id" = Ok incident_id ->
  kw_item kw "comment" = Ok comment ->
  session st1 = Some h ->
  sent (snd (add_comment kw st)) =
    mkRequest PUT
      (base ++ "/" ++ incident_id ++ "/comments/" ++ uuid4 (drawn st1))
      [("api-version", "2020-01-01")] [] h
      (JsonBody (VDict [("properties", VDict [("message", VStr comment)])]))
    :: sent st1
  /\ drawn (snd (add_comment kw st)) = S (drawn st1).
Proof.
  intros Ht Hc Hs Hauth Hok Hbase Hid Hcomment Hh.
  rewrite (add_comment_answered _ _ _ _ _ _ _ _ _ _ _
             Ht Hc Hs Hauth Hok Hbase Hid Hcomment Hh).
  cbv zeta. now destruct (net _ _).
Qed.

(** X26. Once the update of [add_comment] is answered: a status other
    than 200 makes the action return the raw body; a 200 whose body is a
    JSON object makes it return the JSON text of that object with
    [success] set to [true]; a 200 with another body ends it with
    [JSONDecodeError] or [TypeError]. *)
Theorem add_comment_result kw st tenant_id client_id client_secret auth st1
    base incident_id comment h res :
  kw_item kw "tenant_id" = Ok tenant_id ->
  kw_item kw "client_id" = Ok client_id ->
  kw_item kw "client_secret" = Ok client_secret ->
  authenticate tenant_id client_id client_secret st = (Ok auth, st1) ->
  success auth = true ->
  incidents_url kw = Ok base ->
  kw_item kw "incident_id" = Ok incident_id ->
  kw_item kw "comment" = Ok comment ->
  session st1 = Some h ->
  net (sent st1)
    (mkRequest PUT
       (base ++ "/" ++ incident_id ++ "/comments/" ++ uuid4 (drawn st1))
       [("api-version", "2020-01-01")] [] h
       (JsonBody (VDict [("properties", VDict [("message", VStr comment)])])))
  = Some res ->
  fst (add_comment kw st) =
  if status_code res =? 200 then
    match json_loads (text res) with
    | None => Raise JSONDecodeError
    | Some (VDict body) =>
        Ok (VStr (json_dumps (VDict (Dict.set "success" (VBool true) body))))
    | Some _ => Raise TypeError
    end
  else Ok (VStr (text res)).
Proof.
  intros Ht Hc Hs Hauth Hok Hbase Hid Hcomment Hh Hnet.
  rewrite (add_comment_answered _ _ _ _ _ _ _ _ _ _ _
             Ht Hc Hs Hauth Hok Hbase Hid Hcomment Hh).
  cbv zeta. now rewrite Hnet.
Qed.

(** X27. The argument [comment] is read after the identifier is drawn:
    without it, and once [authenticate] has returned success,
    [add_comment] ends with [KeyError]; an identifier has been used, and
    only the token request has gone out. *)
Theorem add_comment_without_comment kw st tenant_id client_id client_secret
    auth st1 base incident_id :
  kw_item kw "tenant_id" = Ok tenant_id ->
  kw_item kw "client_id" = Ok client_id ->
  kw_item kw "client_secret" = Ok client_secret ->
  authenticate tenant_id client_id client_secret st = (Ok auth, st1) ->
  success auth = true ->
  incidents_url kw = Ok base ->
  kw_item kw "incident_id" = Ok incident_id ->
  Dict.mem "comment" kw = false ->
  add_comment kw st =
  (Raise (KeyError "comment"),
   mkApp (session st1) (sent st1) (S (drawn st1))).
Proof.
  intros Ht Hc Hs Hauth Hok Hbase Hid Hcomment.
  unfold add_comment.
  rewrite (bind_lift_ok _ _ _ _ Ht), (bind_lift_ok _ _ _ _ Hc),
    (bind_lift_ok _ _ _ _ Hs), (bind_ok _ _ _ _ _ Hauth), Hok.
  cbn [negb].
  rewrite (bind_lift_ok _ _ _ _ (comments_url_ok _ _ _ Hbase Hid)).
  rewrite (bind_ok fresh_uuid _ st1 _ (uuid4 (drawn st1)) eq_refl).
  now rewrite (bind_lift_raise _ _ _ _ (kw_item_missing _ _ Hcomment)).
Qed.

(** ** Across the actions *)

Lemma carries_close_rest h kw fetched :
  carries h
    (incident <- lift (loads fetched) ;;
     has_error <- lift (py_in "error" incident) ;;
     if (has_error : bool) then ret (json_dumps incident)
     else
       data <- lift (build_close_data kw incident) ;;
       url <- lift (incident_url kw) ;;
       res <- session_request PUT url [("api-version", "2020-01-01")]
                [] (JsonBody data) ;;
       read_closed res).
Proof. carries_steps. Qed.

Lemma carries_add_comment_rest h kw :
  carries h
    (url <- lift (comments_url kw) ;;
     comment_id <- fresh_uuid ;;
     comment <- lift (kw_item kw "comment") ;;
     let comment_data :=
       VDict [("properties", VDict [("message", VStr comment)])] in
     res <- session_request PUT (url ++ "/" ++ comment_id)
              [("api-version", "2020-01-01")] [] (JsonBody comment_data) ;;
     if negb (status_code res =? 200) then ret (VStr (text res))
     else
       r <- lift (with_success res) ;;
       ret (VStr r)).
Proof. carries_steps. Qed.

(** X28. Every request an action sends after [authenticate] has returned
    goes out with the headers [authenticate] has left on the session:
    the bearer token after a grant; the default headers, without a
    token, when [get_incident] or [close_incident] goes on after a
    failure. *)
Theorem requests_carry_the_session_headers kw st tenant_id client_id
    client_secret auth st1 h :
  kw_item kw "tenant_id" = Ok tenant_id ->
  kw_item kw "client_id" = Ok client_id ->
  kw_item kw "client_secret" = Ok client_secret ->
  authenticate tenant_id client_id client_secret st = (Ok auth, st1) ->
  session st1 = Some h ->
  let after (st' : app) :=
    exists later,
      sent st' = (later ++ sent st1)%list
      /\ Forall (fun r => req_session_headers r = h) later in
  after (snd (get_incidents kw st))
  /\ after (snd (add_comment kw st))
  /\ (PyStr.truthy (kw_get kw "incident_id" EmptyString) = true ->
      after (snd (get_incident kw st))
      /\ after (snd (close_incident kw st))).
Proof.
  intros Ht Hc Hs Hauth Hh after. subst after. cbv beta.
  split; [|split].
  - unfold get_incidents.
    rewrite (bind_lift_ok _ _ _ _ Ht), (bind_lift_ok _ _ _ _ Hc),
      (bind_lift_ok _ _ _ _ Hs), (bind_ok _ _ _ _ _ Hauth).
    destruct (negb (success auth)); [now exists []|].
    exact (proj2 (carries_list_incidents h kw st1 Hh)).
  - unfold add_comment.
    rewrite (bind_lift_ok _ _ _ _ Ht), (bind_lift_ok _ _ _ _ Hc),
      (bind_lift_ok _ _ _ _ Hs), (bind_ok _ _ _ _ _ Hauth).
    destruct (negb (success auth)); [now exists []|].
    exact (proj2 (carries_add_comment_rest h kw st1 Hh)).
  - intros Hid.
    assert (Hrun : get_incident kw st = fetch_incident kw st1).
    { unfold get_incident. rewrite Hid. cbn [negb].
      now rewrite (bind_lift_ok _ _ _ _ Ht), (bind_lift_ok _ _ _ _ Hc),
        (bind_lift_ok _ _ _ _ Hs), (bind_ok _ _ _ _ _ Hauth). }
    split.
    + rewrite Hrun. exact (proj2 (carries_fetch_incident h kw st1 Hh)).
    + unfold close_incident. rewrite (bind_from _ _ _ _ _ Hrun).
      refine (proj2 (carries_bind h (fetch_incident kw) _ _ _ st1 Hh)).
      * apply carries_fetch_incident.
      * intros fetched. apply carries_close_rest.
Qed.

(** What follows [authenticate] comes after the token request. *)
Lemma bind_authenticate_sent {A : Type} (P : request -> Prop)
    tenant_id client_id client_secret (k : auth_result -> M A) st :
  (forall auth, emits P (k auth)) ->
  exists later,
    sent (snd (bind (authenticate tenant_id client_id client_secret) k st)) =
    (later ++ token_request tenant_id client_id client_secret :: sent st)%list.
Proof.
  intros Hk. unfold bind.
  destruct (authenticate_sent tenant_id client_id client_secret st)
    as [Hsent _].
  destruct (authenticate tenant_id client_id client_secret st)
    as [[auth|e] st1]; simpl in *.
  - destruct (Hk auth st1) as [later [E _]].
    exists later. now rewrite E, Hsent.
  - exists []. exact Hsent.
Qed.

Lemma emits_list_incidents kw : emits not_put (list_incidents kw).
Proof.
  unfold list_incidents, read_incidents.
  emits_steps; try (unfold not_put; simpl; discriminate);
    apply emits_enrich_incidents; auto with emits.
Qed.

#[local] Hint Resolve emits_list_incidents : emits.

Lemma emits_get_incidents kw : emits not_put (get_incidents kw).
Proof. unfold get_incidents. emits_steps. Qed.

Lemma emits_any {A : Type} (P : request -> Prop) (m : M A) :
  emits P m -> emits (fun _ => True) m.
Proof. apply emits_weaken. auto. Qed.

(** After the three credentials, an action that authenticates. *)
Lemma credentials_then_token {A : Type} kw
    (rest : auth_result -> M A) st :
  (forall auth, emits (fun _ => True) (rest auth)) ->
  let m :=
    tenant_id <- lift (kw_item kw "tenant_id") ;;
    client_id <- lift (kw_item kw "client_id") ;;
    client_secret <- lift (kw_item kw "client_secret") ;;
    auth <- authenticate tenant_id client_id client_secret ;;
    rest auth in
  sent (snd (m st)) = sent st
  \/ exists later tenant_id client_id client_secret,
       sent (snd (m st)) =
       (later ++ token_request tenant_id client_id client_secret :: sent st)%list.
Proof.
  intros Hrest m. subst m.
  destruct (kw_item kw "tenant_id") as [t|e] eqn:Ht;
    [rewrite (bind_lift_ok _ _ _ _ eq_refl)|now left].
  destruct (kw_item kw "client_id") as [c|e] eqn:Hc;
    [rewrite (bind_lift_ok _ _ _ _ eq_refl)|now left].
  destruct (kw_item kw "client_secret") as [s|e] eqn:Hs;
    [rewrite (bind_lift_ok _ _ _ _ eq_refl)|now left].
  right.
  destruct (bind_authenticate_sent (fun _ => True) t c s rest st Hrest)
    as [later E].
  now exists later, t, c, s.
Qed.


(** ** Updates *)

Lemma one_update_emits {A : Type} (m : M A) : emits not_put m -> one_update m.
Proof.
  intros Hm st. destruct (Hm st) as [new [E [F _]]].
  exists new. split; [exact E|now left].
Qed.

Lemma one_update_bind {A B : Type} (m : M A) (k : A -> M B) :
  emits not_put m -> (forall a, one_update (k a)) -> one_update (bind m k).
Proof.
  intros Hm Hk st. unfold bind.
  destruct (Hm st) as [new1 [E1 [F1 _]]].
  destruct (m st) as [[a|e] st1]; simpl in *.
  - destruct (Hk a st1) as [new2 [E2 H2]].
    exists (new2 ++ new1)%list. split; [now rewrite E2, E1, app_assoc|].
    destruct H2 as [F2|[rq [older [-> [Hput F2]]]]].
    + left. apply Forall_app. now split.
    + right. exists rq, (older ++ new1)%list. repeat split; auto.
      apply Forall_app. now split.
  - exists new1. split; [exact E1|now left].
Qed.

Lemma one_update_if {A : Type} (b : bool) (m1 m2 : M A) :
  one_update m1 -> one_update m2 -> one_update (if b then m1 else m2).
Proof. now destruct b. Qed.

(** A [PUT] after which nothing is sent. *)
Lemma one_update_put {A : Type} url params headers body (k : response -> M A) :
  (forall res, emits (fun _ => False) (k res)) ->
  one_update (bind (session_request PUT url params headers body) k).
Proof.
  intros Hk st. unfold bind, session_request.
  destruct (session st) as [h|] eqn:Hh; [|exists []; split; [reflexivity|now left]].
  exists [mkRequest PUT url params headers h body]. split.
  - destruct (net _ _) as [res|]; [|reflexivity].
    destruct (Hk res (mkApp (Some h)
                        (mkRequest PUT url params headers h body :: sent st)
                        (drawn st))) as [later [E [F _]]].
    rewrite E. destruct later as [|r later]; [reflexivity|now inversion F].
  - right. exists (mkRequest PUT url params headers h body), [].
    now repeat split.
Qed.

(** X30. [get_incidents] and [get_incident] send no [PUT]: they read.
    [close_incident] and [add_comment] send at most one [PUT], and
    nothing after it. *)
Theorem at_most_one_update kw :
  emits (fun r => req_method r <> PUT) (get_incidents kw)
  /\ emits (fun r => req_method r <> PUT) (get_incident kw)
  /\ one_update (close_incident kw)
  /\ one_update (add_comment kw).
Proof.
  split; [exact (emits_get_incidents kw)|].
  split; [exact (emits_get_incident kw)|]. split.
  - unfold close_incident.
    apply one_update_bind; [apply emits_get_incident|intros fetched].
    apply one_update_bind; [apply emits_lift|intros incident].
    apply one_update_bind; [apply emits_lift|intros has_error].
    apply one_update_if; [apply one_update_emits, emits_ret|].
    apply one_update_bind; [apply emits_lift|intros data].
    apply one_update_bind; [apply emits_lift|intros url].
    apply one_update_put. apply emits_read_closed.
  - unfold add_comment.
    apply one_update_bind; [apply emits_lift|intros tenant_id].
    apply one_update_bind; [apply emits_lift|intros client_id].
    apply one_update_bind; [apply emits_lift|intros client_secret].
    apply one_update_bind; [apply emits_authenticate|intros auth].
    apply one_update_if; [apply one_update_emits, emits_ret|].
    apply one_update_bind; [apply emits_lift|intros url].
    apply one_update_bind; [apply emits_fresh_uuid|intros comment_id].
    apply one_update_bind; [apply emits_lift|intros comment].
    apply one_update_put. intros res. emits_steps.
Qed.

End App.

(** ** The actions against the concrete environment *)

#[warnings="-notation-for-abbreviation"]
Notation mock_authenticate :=
  (authenticate Mock.net Mock.loads Mock.str Mock.default_headers).
#[warnings="-notation-for-abbreviation"]
Notation mock_get_incidents :=
  (get_incidents Mock.net Mock.loads Mock.dumps Mock.str Mock.default_headers).
#[warnings="-notation-for-abbreviation"]
Notation mock_get_incident :=
  (get_incident Mock.net Mock.loads Mock.dumps Mock.str Mock.default_headers).
#[warnings="-notation-for-abbreviation"]
Notation mock_close_incident :=
  (close_incident Mock.net Mock.loads Mock.dumps Mock.str Mock.default_headers).
#[warnings="-notation-for-abbreviation"]
Notation mock_add_comment :=
  (add_comment Mock.net Mock.loads Mock.dumps Mock.str Mock.uuid4
     Mock.default_headers).

(** The printer and the reader agree on the string of line 127. *)
Example no_incident_id_document :
  Mock.dumps Mock.no_id_document = no_incident_id
  /\ Mock.loads no_incident_id = Some Mock.no_id_document.
Proof. split; reflexivity. Qed.

(** C1, at a failing input. The token endpoint answers 502 with the body
    ["Bad Gateway"], which is not JSON: [authenticate] ends with
    [JSONDecodeError], raised by [res.json()] in the log call of line 44,
    and returns no failure result. *)
Theorem authenticate_raises_on_non_json_rejection :
  Mock.net [] (token_request Mock.default_headers "gateway" "app1" "s3cr3t")
  = Some (mkResponse 502 "Bad Gateway")
  /\ Mock.loads "Bad Gateway" = None
  /\ mock_authenticate "gateway" "app1" "s3cr3t" Mock.fresh
     = (Raise JSONDecodeError,
        token_requested Mock.default_headers "gateway" "app1" "s3cr3t"
          Mock.fresh).
Proof. repeat split; reflexivity. Qed.

(** The same endpoint with a JSON body: the failure is returned. *)
Example authenticate_rejected_example :
  mock_authenticate "expired" "app1" "s3cr3t" Mock.fresh
  = (Ok (mkAuth false (Mock.dumps Mock.invalid_client_document)),
     token_requested Mock.default_headers "expired" "app1" "s3cr3t"
       Mock.fresh).
Proof. reflexivity. Qed.

(** And a token: the session carries it. *)
Example authenticate_granted_example :
  exists st1,
    mock_authenticate "contoso" "app1" "s3cr3t" Mock.fresh
    = (Ok (mkAuth true (Mock.dumps Mock.token_document)), st1)
    /\ session st1 = Some [ ("Authorization", "Bearer eyJ0eXAi");
                            ("cache-control", "no-cache") ].
Proof. eexists. split; reflexivity. Qed.

(** C4, as stated, fails: with the status ["New"] and a [last_modified],
    the filter built by the status branch is the start of the final
    filter. *)
Lemma earlier_filter_is_not_discarded :
  build_query_filter "New" EmptyString = "( properties/status eq 'New' )"
  /\ build_query_filter "New" "2021-03-01T00:00:00"
     = "( properties/status eq 'New' ) and (properties/lastModifiedTimeUtc ge 2021-03-01T00:00:00Z)"
  /\ ~ earlier_filter_discarded "New" "2021-03-01T00:00:00".
Proof. repeat split. discriminate. Qed.

(** The status ["New"] with a [last_modified]: the status filter is kept. *)
Lemma last_modified_branch_keeps_status_filter_witness :
  build_query_filter "New" "2021-03-01T00:00:00"
  = build_query_filter "New" EmptyString
    ++ " and (properties/lastModifiedTimeUtc ge 2021-03-01T00:00:00Z)".
Proof.
  exact (proj1 (last_modified_branch_keeps_status_filter
                  "New" "2021-03-01T00:00:00" eq_refl eq_refl)).
Defined.

(** [get_incident] with no [incident_id] among its arguments. *)
Lemma get_incident_without_id_witness :
  mock_get_incident (Mock.credentials "contoso") Mock.fresh
  = (Ok no_incident_id, Mock.fresh).
Proof.
  apply (get_incident_without_id Mock.net Mock.loads Mock.dumps Mock.str
           Mock.default_headers (Mock.credentials "contoso") Mock.fresh).
  left. reflexivity.
Defined.

(** [get_incidents] for the statuses ["New, Active"] in the tenant [contoso]. *)
Lemma get_incidents_status_filter_witness :
  exists h later,
    sent (snd (mock_get_incidents
                 (Mock.list_args "contoso" "New, Active" EmptyString)
                 Mock.fresh))
    = (later
       ++ mkRequest GET Mock.workspace_url
            [ ("api-version", "2020-01-01");
              ("$filter",
               "( properties/status eq 'New' or properties/status eq 'Active' )") ]
            [] h NoBody
       :: [token_request Mock.default_headers "contoso" "app1" "s3cr3t"])%list.
Proof.
  edestruct (get_incidents_status_filter Mock.net Mock.loads Mock.dumps
               Mock.str Mock.default_headers
               (Mock.list_args "contoso" "New, Active" EmptyString) Mock.fresh
               "contoso" "app1" "s3cr3t")
    as [[h [later [Hh E]]] Hfilter]; try reflexivity.
  exists h, later. rewrite E. reflexivity.
Defined.

(** The same call with a [last_modified]. *)
Lemma get_incidents_status_and_last_modified_filter_witness :
  exists h later,
    sent (snd (mock_get_incidents
                 (Mock.list_args "contoso" "New, Active" "2021-03-01T00:00:00")
                 Mock.fresh))
    = (later
       ++ mkRequest GET Mock.workspace_url
            [ ("api-version", "2020-01-01");
              ("$filter",
               "( properties/status eq 'New' or properties/status eq 'Active' ) and (properties/lastModifiedTimeUtc ge 2021-03-01T00:00:00Z)") ]
            [] h NoBody
       :: [token_request Mock.default_headers "contoso" "app1" "s3cr3t"])%list.
Proof.
  edestruct (get_incidents_status_and_last_modified_filter Mock.net Mock.loads
               Mock.dumps Mock.str Mock.default_headers
               (Mock.list_args "contoso" "New, Active" "2021-03-01T00:00:00")
               Mock.fresh "contoso" "app1" "s3cr3t")
    as [h [later [Hh E]]]; try reflexivity.
  exists h, later. rewrite E. reflexivity.
Defined.

(** The same call with a [last_modified] and an empty status. *)
Lemma get_incidents_last_modified_only_filter_witness :
  exists h later,
    sent (snd (mock_get_incidents
                 (Mock.list_args "contoso" EmptyString "2021-03-01T00:00:00")
                 Mock.fresh))
    = (later
       ++ mkRequest GET Mock.workspace_url
            [ ("api-version", "2020-01-01");
              ("$filter",
               " and (properties/lastModifiedTimeUtc ge 2021-03-01T00:00:00Z)") ]
            [] h NoBody
       :: [token_request Mock.default_headers "contoso" "app1" "s3cr3t"])%list.
Proof.
  edestruct (get_incidents_last_modified_only_filter Mock.net Mock.loads
               Mock.dumps Mock.str Mock.default_headers
               (Mock.list_args "contoso" EmptyString "2021-03-01T00:00:00")
               Mock.fresh "contoso" "app1" "s3cr3t")
    as [[h [later [Hh E]]] Hprefix]; try reflexivity.
  exists h, later. rewrite E. reflexivity.
Defined.

(** The tenant [expired] is refused a token: [get_incident] still asks for
    the incident, with the default headers; the two other actions return
    the failure. *)
Lemma get_incident_ignores_failed_authentication_witness :
  let kw := Mock.close_args "expired" "TruePositive" "confirmed" in
  let rejected :=
    VDict [("error", VStr (Mock.dumps Mock.invalid_client_document))] in
  (exists later,
     sent (snd (mock_get_incident kw Mock.fresh))
     = (later
        ++ mkRequest GET (Mock.workspace_url ++ "/inc1")
             [("api-version", "2020-01-01")] [] Mock.default_headers NoBody
        :: [token_request Mock.default_headers "expired" "app1" "s3cr3t"])%list)
  /\ fst (mock_get_incidents kw Mock.fresh) = Ok rejected
  /\ fst (mock_add_comment kw Mock.fresh) = Ok rejected.
Proof.
  intros kw rejected.
  edestruct (get_incident_ignores_failed_authentication Mock.net Mock.loads
               Mock.dumps Mock.str Mock.uuid4 Mock.default_headers
               kw Mock.fresh "expired" "app1" "s3cr3t")
    as [Hrun [[h [later [Hh E]]] [Hlist Hadd]]]; try reflexivity.
  split; [|split].
  - exists later. rewrite E. injection Hh as <-. reflexivity.
  - rewrite Hlist. reflexivity.
  - rewrite Hadd. reflexivity.
Defined.

(** The same tenant closing an incident: the workspace answers 401 with
    an object that has the key [error], which [close_incident] returns;
    no [PUT] goes out. *)
Lemma close_incident_error_passthrough_witness :
  let kw := Mock.close_args "expired" "TruePositive" "confirmed" in
  fst (mock_close_incident kw Mock.fresh)
  = Ok (Mock.dumps Mock.unauthorized_document)
  /\ Forall (fun r => req_method r <> PUT)
       (sent (snd (mock_close_incident kw Mock.fresh))).
Proof.
  intros kw.
  edestruct (close_incident_error_passthrough Mock.net Mock.loads Mock.dumps
               Mock.str Mock.default_headers kw Mock.fresh)
    as [Hclose [new [E F]]]; try reflexivity.
  rewrite Hclose. split; [reflexivity|]. cbn [snd].
  rewrite E. apply Forall_app. split; [exact F|constructor].
Defined.

(** Closing [inc1] as ["FalsePositive-InaccurateData"]. *)
Lemma close_incident_classification_witness :
  exists h payload_etag properties,
    sent (snd (mock_close_incident
                 (Mock.close_args "contoso" "FalsePositive-InaccurateData"
                    "benign scanner")
                 Mock.fresh))
    = mkRequest PUT (Mock.workspace_url ++ "/inc1")
        [("api-version", "2020-01-01")] [] h
        (JsonBody (VDict [ ("etag", payload_etag);
                           ("properties", VDict properties) ]))
      :: sent (snd (mock_get_incident
                      (Mock.close_args "contoso" "FalsePositive-InaccurateData"
                         "benign scanner")
                      Mock.fresh))
    /\ Dict.get "classification" properties = Some (VStr "FalsePositive")
    /\ Dict.get "classificationReason" properties
       = Some (VStr "InaccurateData").
Proof.
  edestruct (close_incident_classification Mock.net Mock.loads Mock.dumps
               Mock.str Mock.default_headers
               (Mock.close_args "contoso" "FalsePositive-InaccurateData"
                  "benign scanner")
               Mock.fresh)
    as [h [payload_etag [properties [Hh [E [_ [_ [Hfp _]]]]]]]];
    try reflexivity.
  exists h, payload_etag, properties.
  split; [exact E|]. exact (Hfp eq_refl).
Defined.

(** Closing [inc1] as ["TruePositive"]: the entity tag goes out without
    its quotes, the title and the severity as fetched. *)
Lemma close_incident_payload_witness :
  exists h properties,
    sent (snd (mock_close_incident
                 (Mock.close_args "contoso" "TruePositive" "confirmed")
                 Mock.fresh))
    = mkRequest PUT (Mock.workspace_url ++ "/inc1")
        [("api-version", "2020-01-01")] [] h
        (JsonBody (VDict [ ("etag", VStr "0300bf09");
                           ("properties", VDict properties) ]))
      :: sent (snd (mock_get_incident
                      (Mock.close_args "contoso" "TruePositive" "confirmed")
                      Mock.fresh))
    /\ Dict.get "title" properties = Some (VStr "Suspicious sign-in")
    /\ Dict.get "severity" properties = Some (VStr "High")
    /\ Dict.get "status" properties = Some (VStr "Closed")
    /\ Dict.get "classificationComment" properties = Some (VStr "confirmed").
Proof.
  edestruct (close_incident_payload Mock.net Mock.loads Mock.dumps
               Mock.str Mock.default_headers
               (Mock.close_args "contoso" "TruePositive" "confirmed")
               Mock.fresh)
    as [h [properties [Hh [E [Ht [Hs [Hst [Hc _]]]]]]]];
    try reflexivity.
  exists h, properties. split; [exact E|]. now repeat split.
Defined.

(** ** The actions against the second environment *)

#[warnings="-notation-for-abbreviation"]
Notation lab_authenticate :=
  (authenticate Lab.net Lab.loads Mock.str Mock.default_headers).
#[warnings="-notation-for-abbreviation"]
Notation lab_extract_entities := (extract_entities Lab.net Lab.loads Mock.str).
#[warnings="-notation-for-abbreviation"]
Notation lab_extract_comments := (extract_comments Lab.net Lab.loads Mock.str).
#[warnings="-notation-for-abbreviation"]
Notation lab_get_incident :=
  (get_incident Lab.net Lab.loads Mock.dumps Mock.str Mock.default_headers).
#[warnings="-notation-for-abbreviation"]
Notation lab_add_comment :=
  (add_comment Lab.net Lab.loads Mock.dumps Mock.str Mock.uuid4
     Mock.default_headers).

(** The tenant [contoso] is granted a token, which the session carries. *)
Lemma authenticate_result_witness :
  session (snd (mock_authenticate "contoso" "app1" "s3cr3t" Mock.fresh))
  = Some [("Authorization", "Bearer eyJ0eXAi"); ("cache-control", "no-cache")].
Proof.
  edestruct (authenticate_result Mock.net Mock.loads Mock.str
               Mock.default_headers "contoso" "app1" "s3cr3t" Mock.fresh)
    as [res [Hnet [Hmsg Hcase]]]; [reflexivity|].
  simpl in Hcase. destruct Hcase as [Hcode [d [Hjson Hsession]]].
  injection Hnet as <-.
  vm_compute in Hjson. injection Hjson as <-.
  exact Hsession.
Defined.

(** The tenant [fabrikam] gets a 200 without a token. *)
Lemma authenticate_without_access_token_witness :
  session (snd (lab_authenticate "fabrikam" "app1" "s3cr3t" Mock.fresh))
  = Some [("Authorization", "Bearer None"); ("cache-control", "no-cache")].
Proof.
  erewrite (authenticate_without_access_token Lab.net Lab.loads Mock.str
              Mock.default_headers "fabrikam" "app1" "s3cr3t" Mock.fresh);
    reflexivity.
Defined.

(** The tenant [offline] gets no answer. *)
Lemma authenticate_raises_witness :
  fst (lab_authenticate "offline" "app1" "s3cr3t" Mock.fresh)
  = Raise RequestException.
Proof.
  rewrite (authenticate_raises Lab.net Lab.loads Mock.str Mock.default_headers
             "offline" "app1" "s3cr3t" Mock.fresh RequestException);
    [reflexivity|].
  left. split; reflexivity.
Defined.

(** The entities of the second incident are answered with a 404 whose
    body is a JSON object: the extractor returns the empty list. *)
Lemma extract_entities_ignores_status_witness :
  fst (lab_extract_entities (VStr Lab.second_incident_id) Lab.signed_in)
  = Ok (VList []).
Proof.
  erewrite (extract_entities_ignores_status Lab.net Lab.loads Mock.str
              (VStr Lab.second_incident_id) Lab.signed_in);
    cycle 1; reflexivity.
Defined.

(** The same for its comments. *)
Lemma extract_comments_ignores_status_witness :
  fst (lab_extract_comments (VStr Lab.second_incident_id) Lab.signed_in)
  = Ok (VList []).
Proof.
  erewrite (extract_comments_ignores_status Lab.net Lab.loads Mock.str
              (VStr Lab.second_incident_id) Lab.signed_in);
    cycle 1; reflexivity.
Defined.

(** In the first environment the entities are answered with a 404 whose
    body is not JSON. *)
Lemma extractors_raise_on_unreadable_body_witness :
  fst (extract_entities Mock.net Mock.loads Mock.str (VStr Mock.incident_id)
         Lab.signed_in)
  = Raise JSONDecodeError.
Proof.
  edestruct (extractors_raise_on_unreadable_body Mock.net Mock.loads Mock.str
               (VStr Mock.incident_id) Lab.signed_in
               [("Authorization", "Bearer eyJ0eXAi"); ("cache-control", "no-cache")]
               (mkResponse 404 "Not Found") JSONDecodeError)
    as [Hentities _]; [reflexivity|left; split; reflexivity|].
  rewrite Hentities; reflexivity.
Defined.

(** No argument at all. *)
Lemma missing_credential_sends_nothing_witness :
  mock_get_incidents [] Mock.fresh = (Raise (KeyError "tenant_id"), Mock.fresh)
  /\ mock_add_comment [] Mock.fresh = (Raise (KeyError "tenant_id"), Mock.fresh).
Proof.
  edestruct (missing_credential_sends_nothing Mock.net Mock.loads Mock.dumps
               Mock.str Mock.uuid4 Mock.default_headers [] Mock.fresh)
    as [Hlist [Hadd _]]; [reflexivity|].
  split; [exact Hlist|exact Hadd].
Defined.

(** The credentials and the workspace, without [status]. *)
Lemma get_incidents_requires_its_arguments_witness :
  fst (mock_get_incidents (Mock.credentials "contoso") Mock.fresh)
  = Raise (KeyError "status").
Proof.
  erewrite (get_incidents_requires_its_arguments Mock.net Mock.loads Mock.dumps
              Mock.str Mock.default_headers (Mock.credentials "contoso")
              Mock.fresh "contoso" "app1" "s3cr3t");
    reflexivity.
Defined.

(** [get_incidents] with an empty status and an empty [last_modified]. *)
Lemma get_incidents_without_filter_witness :
  exists h later,
    sent (snd (mock_get_incidents
                 (Mock.list_args "contoso" EmptyString EmptyString) Mock.fresh))
    = (later
       ++ mkRequest GET Mock.workspace_url [("api-version", "2020-01-01")]
            [] h NoBody
       :: [token_request Mock.default_headers "contoso" "app1" "s3cr3t"])%list.
Proof.
  edestruct (get_incidents_without_filter Mock.net Mock.loads Mock.dumps
               Mock.str Mock.default_headers
               (Mock.list_args "contoso" EmptyString EmptyString) Mock.fresh
               "contoso" "app1" "s3cr3t")
    as [h [later [Hh E]]]; try reflexivity.
  exists h, later. rewrite E. reflexivity.
Defined.

(** A workspace the first environment does not know: 404, not JSON. *)
Lemma get_incidents_upstream_error_witness :
  fst (mock_get_incidents
         [ ("tenant_id", "contoso"); ("client_id", "app1");
           ("client_secret", "s3cr3t"); ("subscription_id", "sub2");
           ("resource_group_name", "rg1"); ("workspace_name", "ws1");
           ("status", "New"); ("last_modified", EmptyString);
           ("get_entities", "true") ]
         Mock.fresh)
  = Ok (VStr "Not Found").
Proof.
  erewrite (get_incidents_upstream_error Mock.net Mock.loads Mock.dumps
              Mock.str Mock.default_headers _ Mock.fresh
              "contoso" "app1" "s3cr3t");
    cycle 1; try reflexivity.
  discriminate.
Defined.

(** The incidents of the workspace, not enriched. *)
Lemma get_incidents_plain_witness :
  fst (mock_get_incidents (Mock.list_args "contoso" "New" EmptyString)
         Mock.fresh)
  = Ok (VStr (Mock.dumps (VList [Mock.incident_document]))).
Proof.
  erewrite (get_incidents_plain Mock.net Mock.loads Mock.dumps
              Mock.str Mock.default_headers _ Mock.fresh
              "contoso" "app1" "s3cr3t");
    cycle 1; reflexivity.
Defined.

(** The two incidents of the second workspace, enriched with entities. *)
Lemma enrich_incidents_keeps_incidents_witness :
  exists l',
    fst (enrich_incidents "entities" lab_extract_entities
           (VList [Mock.incident_document; Lab.second_incident_document])
           Lab.signed_in)
    = Ok (VList l')
    /\ length l' = 2%nat.
Proof.
  edestruct (enrich_incidents_keeps_incidents "entities" lab_extract_entities
               [Mock.incident_document; Lab.second_incident_document]
               Lab.signed_in)
    as [l' [Hv Hshape]]; [reflexivity|].
  exists l'. split; [rewrite <- Hv; reflexivity|].
  symmetry. exact (Forall2_length Hshape).
Defined.

(** One [POST] per incident, the first incident first. *)
Lemma enrichment_sends_one_request_per_incident_witness :
  map req_url
    (sent (snd (enrich_incidents "entities" lab_extract_entities
                  (VList [Mock.incident_document; Lab.second_incident_document])
                  Lab.signed_in)))
  = [ Mock.workspace_url ++ "/inc2/entities";
      Mock.workspace_url ++ "/inc1/entities" ].
Proof.
  edestruct (enrichment_sends_one_request_per_incident Lab.net Lab.loads Mock.str
               [Mock.incident_document; Lab.second_incident_document]
               Lab.signed_in)
    as [Hentities _]; [reflexivity|].
  edestruct Hentities as [ids [Hids Hsent]]; [reflexivity|].
  etransitivity; [apply (f_equal (map req_url)); exact Hsent|].
  inversion Hids as [|? id1 ? ids1 H1 Hids1]; subst.
  inversion Hids1 as [|? id2 ? ids2 H2 Hids2]; subst.
  inversion Hids2; subst.
  injection H1 as <-. injection H2 as <-. reflexivity.
Defined.

(** An incident the first workspace does not have. *)
Lemma get_incident_upstream_error_witness :
  fst (mock_get_incident
         (Mock.credentials "contoso" ++ [("incident_id", "inc9")])%list
         Mock.fresh)
  = Ok "Not Found".
Proof.
  erewrite (get_incident_upstream_error Mock.net Mock.loads Mock.dumps
              Mock.str Mock.default_headers _ Mock.fresh
              "contoso" "app1" "s3cr3t");
    cycle 1; try reflexivity.
  discriminate.
Defined.

(** The incident [inc1], not enriched. *)
Lemma get_incident_plain_witness :
  fst (mock_get_incident
         (Mock.credentials "contoso" ++ [("incident_id", "inc1")])%list
         Mock.fresh)
  = Ok (Mock.dumps Mock.incident_document).
Proof.
  erewrite (get_incident_plain Mock.net Mock.loads Mock.dumps
              Mock.str Mock.default_headers _ Mock.fresh
              "contoso" "app1" "s3cr3t");
    cycle 1; reflexivity.
Defined.

(** The incident [inc1] with both flags, in two spellings. *)
Lemma get_incident_enriched_witness :
  exists entities comments,
    fst (lab_get_incident (Lab.incident_args "contoso" "inc1" "true" "TRUE")
           Mock.fresh)
    = Ok (Mock.dumps
            (VDict [ ("id", VStr Mock.incident_id);
                     ("etag", VStr (PyStr.dq ++ "0300bf09" ++ PyStr.dq));
                     ("properties",
                       VDict [ ("title", VStr "Suspicious sign-in");
                               ("severity", VStr "High");
                               ("status", VStr "New") ]);
                     ("entities", entities);
                     ("comments", comments) ])).
Proof.
  edestruct (get_incident_enriched Lab.net Lab.loads Mock.dumps
               Mock.str Mock.default_headers
               (Lab.incident_args "contoso" "inc1" "true" "TRUE") Mock.fresh
               "contoso" "app1" "s3cr3t")
    as [Hget Hsent]; try reflexivity.
  do 2 eexists. rewrite Hget. reflexivity.
Defined.

(** A document without [id], with the entities asked for. *)
Lemma get_incident_enrichment_needs_id_witness :
  fst (lab_get_incident (Lab.incident_args "contoso" "noid" "true" "false")
         Mock.fresh)
  = Raise (KeyError "id").
Proof.
  erewrite (get_incident_enrichment_needs_id Lab.net Lab.loads Mock.dumps
              Mock.str Mock.default_headers
              (Lab.incident_args "contoso" "noid" "true" "false") Mock.fresh
              "contoso" "app1" "s3cr3t" _ _ _ _ _ _ _ (KeyError "id"));
    cycle 1; try reflexivity.
  - left. reflexivity.
  - left. eexists. repeat split; reflexivity.
Defined.

(** [close_incident] with no [incident_id] among its arguments. *)
Lemma close_incident_without_id_witness :
  mock_close_incident (Mock.credentials "contoso") Mock.fresh
  = (Ok no_incident_id, Mock.fresh).
Proof.
  erewrite (close_incident_without_id Mock.net Mock.loads Mock.dumps Mock.str
              Mock.default_headers (Mock.credentials "contoso") Mock.fresh);
    cycle 1; try reflexivity.
  left. reflexivity.
Defined.

(** Closing an incident the workspace does not have: the raw body of the
    404 is not JSON. *)
Lemma close_incident_unreadable_fetch_witness :
  fst (mock_close_incident
         (Mock.credentials "contoso" ++ [("incident_id", "inc9")])%list
         Mock.fresh)
  = Raise JSONDecodeError.
Proof.
  erewrite (close_incident_unreadable_fetch Mock.net Mock.loads Mock.dumps
              Mock.str Mock.default_headers _ Mock.fresh _ _ JSONDecodeError);
    cycle 1; try reflexivity.
  left. split; reflexivity.
Defined.

(** Closing [inc1] without a [close_reason]. *)
Lemma close_incident_payload_failure_witness :
  fst (mock_close_incident
         (Mock.credentials "contoso" ++ [("incident_id", "inc1")])%list
         Mock.fresh)
  = Raise (KeyError "close_reason").
Proof.
  erewrite (close_incident_payload_failure Mock.net Mock.loads Mock.dumps
              Mock.str Mock.default_headers _ Mock.fresh);
    cycle 1; reflexivity.
Defined.

(** Closing [inc1]: the answer comes back with [success]. *)
Lemma close_incident_result_witness :
  fst (mock_close_incident
         (Mock.close_args "contoso" "TruePositive" "confirmed") Mock.fresh)
  = Ok (Mock.dumps
          (VDict [ ("id", VStr Mock.incident_id);
                   ("properties",
                     VDict [ ("title", VStr "Suspicious sign-in");
                             ("severity", VStr "High");
                             ("status", VStr "Closed") ]);
                   ("success", VBool true) ])).
Proof.
  erewrite (close_incident_result Mock.net Mock.loads Mock.dumps
              Mock.str Mock.default_headers
              (Mock.close_args "contoso" "TruePositive" "confirmed")
              Mock.fresh);
    cycle 1; reflexivity.
Defined.

(** The keys of the payload, with and without a hyphen. *)
Lemma close_incident_payload_keys_witness :
  exists h payload_etag properties,
    sent (snd (mock_close_incident
                 (Mock.close_args "contoso" "FalsePositive-InaccurateData"
                    "benign scanner")
                 Mock.fresh))
    = mkRequest PUT (Mock.workspace_url ++ "/inc1")
        [("api-version", "2020-01-01")] [] h
        (JsonBody (VDict [ ("etag", payload_etag);
                           ("properties", VDict properties) ]))
      :: sent (snd (mock_get_incident
                      (Mock.close_args "contoso" "FalsePositive-InaccurateData"
                         "benign scanner")
                      Mock.fresh))
    /\ map fst properties =
       [ "title"; "status"; "severity"; "classification";
         "classificationComment"; "classificationReason" ].
Proof.
  edestruct (close_incident_payload_keys Mock.net Mock.loads Mock.dumps
               Mock.str Mock.default_headers
               (Mock.close_args "contoso" "FalsePositive-InaccurateData"
                  "benign scanner")
               Mock.fresh)
    as [h [payload_etag [properties [E Hkeys]]]]; try reflexivity.
  exists h, payload_etag, properties. split; [exact E|exact Hkeys].
Defined.

(** A comment on [inc1]: the first identifier is in the target. *)
Lemma add_comment_request_witness :
  map req_url (sent (snd (lab_add_comment
                            (Lab.comment_args "contoso" "escalated")
                            Mock.fresh)))
  = [ Mock.workspace_url ++ "/inc1/comments/3f2b8c1e-5d4a-4e6f-9a7b-0";
      Mock.token_url "contoso" ]
  /\ drawn (snd (lab_add_comment (Lab.comment_args "contoso" "escalated")
                   Mock.fresh)) = 1%nat.
Proof.
  edestruct (add_comment_request Lab.net Lab.loads Mock.dumps Mock.str
               Mock.uuid4 Mock.default_headers
               (Lab.comment_args "contoso" "escalated") Mock.fresh
               "contoso" "app1" "s3cr3t")
    as [Hsent Hdrawn]; try reflexivity.
  rewrite Hsent, Hdrawn. split; reflexivity.
Defined.

(** The answer has [success] false; the action returns it as [true]. *)
Lemma add_comment_result_witness :
  fst (lab_add_comment (Lab.comment_args "contoso" "escalated") Mock.fresh)
  = Ok (VStr (Mock.dumps
                (VDict [ ("name", VStr "c2");
                         ("success", VBool true);
                         ("properties",
                           VDict [("message", VStr "escalated")]) ]))).
Proof.
  erewrite (add_comment_result Lab.net Lab.loads Mock.dumps Mock.str
              Mock.uuid4 Mock.default_headers
              (Lab.comment_args "contoso" "escalated") Mock.fresh
              "contoso" "app1" "s3cr3t");
    cycle 1; reflexivity.
Defined.

(** [add_comment] on [inc1] without a [comment]. *)
Lemma add_comment_without_comment_witness :
  fst (mock_add_comment
         (Mock.credentials "contoso" ++ [("incident_id", "inc1")])%list
         Mock.fresh)
  = Raise (KeyError "comment")
  /\ drawn (snd (mock_add_comment
                   (Mock.credentials "contoso" ++ [("incident_id", "inc1")])%list
                   Mock.fresh)) = 1%nat.
Proof.
  erewrite (add_comment_without_comment Mock.net Mock.loads Mock.dumps Mock.str
              Mock.uuid4 Mock.default_headers _ Mock.fresh
              "contoso" "app1" "s3cr3t");
    cycle 1; try reflexivity.
  split; reflexivity.
Defined.

(** Closing [inc1]: the fetch and the update carry the token. *)
Lemma requests_carry_the_session_headers_witness :
  map req_session_headers
    (sent (snd (mock_close_incident
                  (Mock.close_args "contoso" "TruePositive" "confirmed")
                  Mock.fresh)))
  = [ [("Authorization", "Bearer eyJ0eXAi"); ("cache-control", "no-cache")];
      [("Authorization", "Bearer eyJ0eXAi"); ("cache-control", "no-cache")];
      Mock.default_headers ].
Proof.
  edestruct (requests_carry_the_session_headers Mock.net Mock.loads Mock.dumps
               Mock.str Mock.uuid4 Mock.default_headers
               (Mock.close_args "contoso" "TruePositive" "confirmed")
               Mock.fresh "contoso" "app1" "s3cr3t")
    as [_ [_ Hincident]];
    [reflexivity|reflexivity|reflexivity|reflexivity|reflexivity|].
  destruct (Hincident eq_refl) as [_ [later [Hsent Hheaders]]].
  reflexivity.
Defined.
